(** * aidsorb: the data module for point clouds, and the archive builder

  A shallow embedding of [src/aidsorb/datamodules.py] (class
  [PCDDataModule]) together with the Python run-time notions it relies
  on: exceptions, list slicing, [pathlib]/[os.path] on POSIX paths and
  keyword-argument calls.  The archive builder of [aidsorb.utils], whose
  source is only known through its tests, is modelled from the design
  document in the module [utils]. *)

From Stdlib Require Import List String Ascii ZArith Lia Bool Arith Permutation.
Import ListNotations.
Local Open Scope string_scope.
Local Open Scope list_scope.

(* ===================================================================== *)
(** ** Python run-time notions *)
(* ===================================================================== *)

Module Py.

(** The exceptions that the modelled code can raise or let through. *)
Inductive exn : Type :=
| AttributeError (attr : string)
    (* 'PCDDataModule' object has no attribute [attr] *)
| TypeError_multiple_values (key : string)
    (* got multiple values for keyword argument [key] *)
| MisconfigurationException (hook : string)
    (* the hook of the Lightning base class was not overridden *)
| OSError (path : string)
| ValueError (msg : string)
| ParseError (path : string)
    (* design document: a structure file that cannot be read *)
| BuildError (path : string).
    (* design document: a build aborted by the file [path] *)

Inductive result (A : Type) : Type :=
| Ok (a : A)
| Raise (e : exn).
Arguments Ok {A} a.
Arguments Raise {A} e.

Definition is_ok {A} (r : result A) : bool :=
  match r with Ok _ => true | Raise _ => false end.

(** [len(l)] as a Python integer. *)
Definition len {A} (l : list A) : Z := Z.of_nat (List.length l).

(** The upper bound of the slice [l[:stop]], as [PySlice_AdjustIndices]
    computes it for a step of 1: [None] stands for [len(l)], a negative
    bound counts from the end and is clipped at 0, a bound past the end
    is clipped at [len(l)]. *)
Definition adjust_stop (stop : option Z) (length : Z) : Z :=
  match stop with
  | None => length
  | Some n =>
      if (n <? 0)%Z
      then (if (n + length <? 0)%Z then 0%Z else (n + length)%Z)
      else (if (length <=? n)%Z then length else n)
  end.

(** [l[:stop]] *)
Definition slice_to {A} (l : list A) (stop : option Z) : list A :=
  firstn (Z.to_nat (adjust_stop stop (len l))) l.

(** [x in (a, b, ...)] for values compared with [==]. *)
Definition opt_string_eqb (a b : option string) : bool :=
  match a, b with
  | None, None => true
  | Some x, Some y => String.eqb x y
  | _, _ => false
  end.

Definition in_tuple (x : option string) (t : list (option string)) : bool :=
  existsb (opt_string_eqb x) t.

End Py.

Export Py.

(* ===================================================================== *)
(** ** POSIX paths: [pathlib.PurePosixPath] and [posixpath.join] *)
(* ===================================================================== *)

Module PosixPath.

Definition sep : ascii := "/"%char.

(** [s.split('/')] *)
Fixpoint split (s : string) : list string :=
  match s with
  | EmptyString => [EmptyString]
  | String c s' =>
      if Ascii.eqb c sep then EmptyString :: split s'
      else match split s' with
           | [] => [String c EmptyString]
           | h :: t => String c h :: t
           end
  end.

(** ['/'.join(parts)] *)
Fixpoint join (parts : list string) : string :=
  match parts with
  | [] => EmptyString
  | [p] => p
  | p :: rest => p ++ String sep (join rest)
  end.

(** [s.startswith('/')] and [s.endswith('/')] *)
Definition startswith_sep (s : string) : bool :=
  match s with
  | String c _ => Ascii.eqb c sep
  | EmptyString => false
  end.

Fixpoint endswith_sep (s : string) : bool :=
  match s with
  | EmptyString => false
  | String c EmptyString => Ascii.eqb c sep
  | String _ s' => endswith_sep s'
  end.

(** [posixpath.splitroot], without the (always empty) drive: the root
    is ["/"] for one or for three and more leading slashes, ["//"] for
    exactly two. *)
Definition splitroot (p : string) : string * string :=
  match p with
  | String c1 r1 =>
      if Ascii.eqb c1 sep then
        match r1 with
        | String c2 r2 =>
            if Ascii.eqb c2 sep then
              match r2 with
              | String c3 _ =>
                  if Ascii.eqb c3 sep then ("/", r1) else ("//", r2)
              | EmptyString => ("//", r2)
              end
            else ("/", r1)
        | EmptyString => ("/", r1)
        end
      else ("", p)
  | EmptyString => ("", p)
  end.

(** A parsed path: its root and the list of its components. *)
Record Path : Type := mkPath { root : string; tail : list string }.

(** The components kept by [_parse_path]: [if x and x != '.']. *)
Definition kept (x : string) : bool :=
  negb (String.eqb x "") && negb (String.eqb x ".").

(** [Path(s)] *)
Definition parse (s : string) : Path :=
  let '(r, rel) := splitroot s in
  mkPath r (filter kept (split rel)).

(** [str(p)], which is also [os.fspath(p)] *)
Definition str (p : Path) : string :=
  match root p, tail p with
  | EmptyString, [] => "."
  | r, t => r ++ join t
  end.

(** [p.parent] *)
Definition parent (p : Path) : Path :=
  match tail p with
  | [] => p
  | _ => mkPath (root p) (removelast (tail p))
  end.

(** [p.name] *)
Definition name (p : Path) : string := last (tail p) "".

(** [s.rfind('.')]: the index of the last dot, if there is one. *)
Fixpoint rfind_dot (s : string) : option nat :=
  match s with
  | EmptyString => None
  | String c s' =>
      match rfind_dot s' with
      | Some i => Some (S i)
      | None => if Ascii.eqb c "."%char then Some 0 else None
      end
  end.

(** [p.stem]: the name without its last suffix; a leading or a
    trailing dot does not start a suffix. *)
Definition stem_of_name (n : string) : string :=
  match rfind_dot n with
  | Some i =>
      if ((0 <? i) && (i <? String.length n - 1))%nat
      then substring 0 i n else n
  | None => n
  end.

Definition stem (p : Path) : string := stem_of_name (name p).

(** [os.path.join(a, b)] for two arguments. *)
Definition os_path_join (a b : string) : string :=
  if startswith_sep b then b
  else if String.eqb a "" || endswith_sep a then a ++ b
  else a ++ String sep b.

(** A component that can stand in a parsed path. *)
Fixpoint has_sep (s : string) : bool :=
  match s with
  | EmptyString => false
  | String c s' => Ascii.eqb c sep || has_sep s'
  end.

Definition component (x : string) : Prop :=
  has_sep x = false /\ kept x = true.

(** The roots [splitroot] can return. *)
Definition is_root (r : string) : Prop := r = "" \/ r = "/" \/ r = "//".

(** A path as [parse] builds them. *)
Definition wf (p : Path) : Prop :=
  is_root (root p) /\ Forall component (tail p).

End PosixPath.

(* ===================================================================== *)
(** ** [aidsorb.data]: what the data module uses of it *)
(* ===================================================================== *)

Module data.
Section Dataset.

(** The transforms are Python callables; nothing here looks inside one. *)
Variable Callable : Type.

(** Modelled from the spec: the class [PCDDataset] of [aidsorb.data] is
    not part of the sources at hand.  A dataset is what its constructor
    receives: the names of its split, the paths of the archive and of the
    label table, the key column, the label columns and the two optional
    transforms.  Constructing one reads no file. *)
Record PCDDataset : Type := mkPCDDataset {
  pcd_names : list string;
  path_to_X : string;
  path_to_Y : string;
  index_col : string;
  labels : list string;
  transform_x : option Callable;
  transform_y : option Callable
}.

End Dataset.

Arguments mkPCDDataset {Callable}.
Arguments pcd_names {Callable}.
Arguments path_to_X {Callable}.
Arguments path_to_Y {Callable}.
Arguments index_col {Callable}.
Arguments labels {Callable}.
Arguments transform_x {Callable}.
Arguments transform_y {Callable}.

End data.

(* ===================================================================== *)
(** ** [aidsorb.datamodules]: the class [PCDDataModule] *)
(* ===================================================================== *)

Module datamodules.
Import PosixPath.

Section Model.

Variable Callable : Type.

(** [aidsorb.data.get_names]: reads the list of names stored in a
    manifest file, or raises.  Its source is not at hand, so that it is a
    parameter of the model; a fixed [get_names] stands for a file system
    that does not change. *)
Variable get_names : string -> result (list string).

Local Abbreviation PCDDataset := (data.PCDDataset Callable).

(** The values that travel as keyword arguments. *)
Inductive value : Type :=
| VNone
| VBool (b : bool)
| VInt (z : Z)
| VStr (s : string)
| VDataset (d : PCDDataset).

(** A [dict] with string keys, in insertion order. *)
Definition dict : Type := list (string * value).

Definition has_key (k : string) (d : dict) : bool :=
  existsb (fun kv => String.eqb k (fst kv)) d.

Definition keys (d : dict) : list string := map fst d.

(** [d.get(k)] *)
Fixpoint dict_get (k : string) (d : dict) : option value :=
  match d with
  | [] => None
  | (k', v) :: d' => if String.eqb k k' then Some v else dict_get k d'
  end.

(** The keyword arguments of a call [f(k1=v1, ..., kn=vn, **d)]: the
    items of [d] are added in order to the explicit ones, and a key that
    is already bound raises [TypeError]. *)
Fixpoint dict_merge (kw : dict) (d : dict) : result dict :=
  match d with
  | [] => Ok kw
  | (k, v) :: d' =>
      if has_key k kw then Raise (TypeError_multiple_values k)
      else dict_merge (kw ++ [(k, v)]) d'
  end.

(** [torch.utils.data.DataLoader], the batching engine, is not part of
    the sources: its constructor is a parameter.  Given the keyword
    arguments of a call it returns a loader or raises (a batch size that
    is not positive, shuffling an empty dataset, an option it does not
    know, ...). *)
Variable Loader : Type.
Variable DataLoader : dict -> result Loader.

(** [DataLoader(k1=v1, ..., **d)]: the keyword arguments are merged
    first, and the constructor runs on the merged arguments. *)
Definition call_DataLoader (kw : dict) (d : dict) : result Loader :=
  match dict_merge kw d with
  | Ok k => DataLoader k
  | Raise e => Raise e
  end.

(** The instance: the attributes bound by [__init__], and the ones that
    [setup] binds later ([None] while the attribute does not exist). *)
Record PCDDataModule : Type := mkPCDDataModule {
  path_to_X : string;
  path_to_Y : string;
  index_col : string;
  labels : list string;
  train_transform_x : option Callable;
  eval_transform_x : option Callable;
  transform_y : option Callable;
  train_size : option Z;
  shuffle : bool;
  train_batch_size : Z;
  eval_batch_size : Z;
  config_dataloaders : dict;
  _path_to_names : Path;
  _train_names : option (list string);
  _val_names : option (list string);
  _test_names : option (list string);
  train_dataset : option PCDDataset;
  validation_dataset : option PCDDataset;
  test_dataset : option PCDDataset
}.

(** [PCDDataModule.__init__] *)
Definition __init__
    (path_to_X path_to_Y index_col : string) (labels : list string)
    (train_size : option Z)
    (train_transform_x eval_transform_x transform_y : option Callable)
    (shuffle : bool) (train_batch_size eval_batch_size : Z)
    (config_dataloaders : option dict) : PCDDataModule :=
  {| path_to_X := path_to_X;
     path_to_Y := path_to_Y;
     index_col := index_col;
     labels := labels;
     train_transform_x := train_transform_x;
     eval_transform_x := eval_transform_x;
     transform_y := transform_y;
     train_size := train_size;
     shuffle := shuffle;
     train_batch_size := train_batch_size;
     eval_batch_size := eval_batch_size;
     config_dataloaders :=
       match config_dataloaders with
       | None => []
       | Some d => d
       end;
     _path_to_names := parent (parse path_to_X);
     _train_names := None;
     _val_names := None;
     _test_names := None;
     train_dataset := None;
     validation_dataset := None;
     test_dataset := None |}.

(** *** Methods: computations on the instance that may raise *)

Definition M (A : Type) : Type := PCDDataModule -> result A * PCDDataModule.

Definition ret {A} (a : A) : M A := fun self => (Ok a, self).

Definition bind {A B} (m : M A) (k : A -> M B) : M B :=
  fun self =>
    match m self with
    | (Ok a, self') => k a self'
    | (Raise e, self') => (Raise e, self')
    end.

Definition lift {A} (r : result A) : M A := fun self => (r, self).

(** Reading an attribute bound by [__init__]. *)
Definition attr {A} (field : PCDDataModule -> A) : M A :=
  fun self => (Ok (field self), self).

(** Reading an attribute that [setup] binds. *)
Definition getattr {A} (a : string) (field : PCDDataModule -> option A) : M A :=
  fun self =>
    match field self with
    | Some v => (Ok v, self)
    | None => (Raise (AttributeError a), self)
    end.

Definition modify (f : PCDDataModule -> PCDDataModule) : M unit :=
  fun self => (Ok tt, f self).

Notation "x <- m ;; k" := (bind m (fun x => k))
  (at level 61, m at next level, right associativity).
Notation "m ;; k" := (bind m (fun _ => k))
  (at level 61, right associativity).

(** [self.<attribute> = v] *)
Definition set__train_names (v : list string) (s : PCDDataModule) :=
  mkPCDDataModule (path_to_X s) (path_to_Y s) (index_col s) (labels s)
    (train_transform_x s) (eval_transform_x s) (transform_y s)
    (train_size s) (shuffle s) (train_batch_size s) (eval_batch_size s)
    (config_dataloaders s) (_path_to_names s)
    (Some v) (_val_names s) (_test_names s)
    (train_dataset s) (validation_dataset s) (test_dataset s).

Definition set__val_names (v : list string) (s : PCDDataModule) :=
  mkPCDDataModule (path_to_X s) (path_to_Y s) (index_col s) (labels s)
    (train_transform_x s) (eval_transform_x s) (transform_y s)
    (train_size s) (shuffle s) (train_batch_size s) (eval_batch_size s)
    (config_dataloaders s) (_path_to_names s)
    (_train_names s) (Some v) (_test_names s)
    (train_dataset s) (validation_dataset s) (test_dataset s).

Definition set__test_names (v : list string) (s : PCDDataModule) :=
  mkPCDDataModule (path_to_X s) (path_to_Y s) (index_col s) (labels s)
    (train_transform_x s) (eval_transform_x s) (transform_y s)
    (train_size s) (shuffle s) (train_batch_size s) (eval_batch_size s)
    (config_dataloaders s) (_path_to_names s)
    (_train_names s) (_val_names s) (Some v)
    (train_dataset s) (validation_dataset s) (test_dataset s).

Definition set_train_dataset_attr (v : PCDDataset) (s : PCDDataModule) :=
  mkPCDDataModule (path_to_X s) (path_to_Y s) (index_col s) (labels s)
    (train_transform_x s) (eval_transform_x s) (transform_y s)
    (train_size s) (shuffle s) (train_batch_size s) (eval_batch_size s)
    (config_dataloaders s) (_path_to_names s)
    (_train_names s) (_val_names s) (_test_names s)
    (Some v) (validation_dataset s) (test_dataset s).

Definition set_validation_dataset_attr (v : PCDDataset) (s : PCDDataModule) :=
  mkPCDDataModule (path_to_X s) (path_to_Y s) (index_col s) (labels s)
    (train_transform_x s) (eval_transform_x s) (transform_y s)
    (train_size s) (shuffle s) (train_batch_size s) (eval_batch_size s)
    (config_dataloaders s) (_path_to_names s)
    (_train_names s) (_val_names s) (_test_names s)
    (train_dataset s) (Some v) (test_dataset s).

Definition set_test_dataset_attr (v : PCDDataset) (s : PCDDataModule) :=
  mkPCDDataModule (path_to_X s) (path_to_Y s) (index_col s) (labels s)
    (train_transform_x s) (eval_transform_x s) (transform_y s)
    (train_size s) (shuffle s) (train_batch_size s) (eval_batch_size s)
    (config_dataloaders s) (_path_to_names s)
    (_train_names s) (_val_names s) (_test_names s)
    (train_dataset s) (validation_dataset s) (Some v).

(** The properties [train_names], [val_names] and [test_names]. *)
Definition train_names : M (list string) := getattr "_train_names" _train_names.
Definition val_names : M (list string) := getattr "_val_names" _val_names.
Definition test_names : M (list string) := getattr "_test_names" _test_names.

(** [PCDDataset(pcd_names=names, path_to_X=self.path_to_X, ...,
    transform_x=tx, transform_y=self.transform_y)] *)
Definition new_PCDDataset (names : list string) (tx : option Callable)
    (self : PCDDataModule) : PCDDataset :=
  data.mkPCDDataset names (path_to_X self) (path_to_Y self)
    (index_col self) (labels self) tx (transform_y self).

Definition set_train_dataset : M unit :=
  names <- train_names ;;
  tx <- attr train_transform_x ;;
  ds <- attr (new_PCDDataset names tx) ;;
  modify (set_train_dataset_attr ds).

Definition set_validation_dataset : M unit :=
  names <- val_names ;;
  tx <- attr eval_transform_x ;;
  ds <- attr (new_PCDDataset names tx) ;;
  modify (set_validation_dataset_attr ds).

Definition set_test_dataset : M unit :=
  names <- test_names ;;
  tx <- attr eval_transform_x ;;
  ds <- attr (new_PCDDataset names tx) ;;
  modify (set_test_dataset_attr ds).

(** [os.path.join(self._path_to_names, file)] *)
Definition manifest_path (file : string) : M string :=
  dir <- attr _path_to_names ;;
  ret (os_path_join (str dir) file).

(** [PCDDataModule.setup] *)
Definition setup (stage : option string) : M unit :=
  (if in_tuple stage [None; Some "fit"] then
     p <- manifest_path "train.json" ;;
     names <- lift (get_names p) ;;
     size <- attr train_size ;;
     modify (set__train_names (slice_to names size)) ;;
     p <- manifest_path "validation.json" ;;
     names <- lift (get_names p) ;;
     modify (set__val_names names) ;;
     set_train_dataset ;;
     set_validation_dataset
   else ret tt) ;;
  (if in_tuple stage [None; Some "test"] then
     p <- manifest_path "test.json" ;;
     names <- lift (get_names p) ;;
     modify (set__test_names names) ;;
     set_test_dataset
   else ret tt).

(** [PCDDataModule.train_dataloader] *)
Definition train_dataloader : M Loader :=
  ds <- getattr "train_dataset" train_dataset ;;
  bs <- attr train_batch_size ;;
  sh <- attr shuffle ;;
  cfg <- attr config_dataloaders ;;
  lift (call_DataLoader
          [("dataset", VDataset ds); ("batch_size", VInt bs);
           ("shuffle", VBool sh)] cfg).

(** [PCDDataModule.val_dataloader] *)
Definition val_dataloader : M Loader :=
  ds <- getattr "validation_dataset" validation_dataset ;;
  bs <- attr eval_batch_size ;;
  cfg <- attr config_dataloaders ;;
  lift (call_DataLoader
          [("dataset", VDataset ds); ("batch_size", VInt bs)] cfg).

(** [PCDDataModule.test_dataloader] *)
Definition test_dataloader : M Loader :=
  ds <- getattr "test_dataset" test_dataset ;;
  bs <- attr eval_batch_size ;;
  cfg <- attr config_dataloaders ;;
  lift (call_DataLoader
          [("dataset", VDataset ds); ("batch_size", VInt bs)] cfg).

(** The class body defines no [predict_dataloader]: a call resolves to
    the hook inherited from [LightningDataModule], which raises. *)
Definition predict_dataloader : M Loader :=
  lift (Raise (MisconfigurationException "predict_dataloader")).

(** The four logical splits of the design document and its operation
    [loader_for(split)], read on the methods of the class. *)
Inductive logical_split : Type := Train | Validation | Test | Predict.

Definition loader_for (s : logical_split) : M Loader :=
  match s with
  | Train => train_dataloader
  | Validation => val_dataloader
  | Test => test_dataloader
  | Predict => predict_dataloader
  end.

(** The datasets an instance holds: its dataset-valued attributes. *)
Definition datasets (self : PCDDataModule) : list (string * PCDDataset) :=
  (match train_dataset self with
   | Some d => [("train_dataset", d)] | None => [] end) ++
  (match validation_dataset self with
   | Some d => [("validation_dataset", d)] | None => [] end) ++
  (match test_dataset self with
   | Some d => [("test_dataset", d)] | None => [] end).

(** A caller that runs [setup] for each stage of a list in turn and goes
    on after a failure: the instance after the calls. *)
Fixpoint run_setups (stages : list (option string)) (self : PCDDataModule)
  : PCDDataModule :=
  match stages with
  | [] => self
  | st :: rest => run_setups rest (snd (setup st self))
  end.

(** *** Reading [setup] block by block *)

(** The path [setup] gives to [get_names] for the manifest [file]. *)
Definition manifest (self : PCDDataModule) (file : string) : string :=
  os_path_join (str (_path_to_names self)) file.

(** What [__init__] establishes between two of the attributes. *)
Definition configured (self : PCDDataModule) : Prop :=
  _path_to_names self = parent (parse (path_to_X self)).

(** No attribute of [setup] is bound yet. *)
Definition fresh (self : PCDDataModule) : Prop :=
  _train_names self = None /\ _val_names self = None /\
  _test_names self = None /\ train_dataset self = None /\
  validation_dataset self = None /\ test_dataset self = None.

(** The instance once the block of the stage [fit] has run. *)
Definition after_fit (train val : list string) (self : PCDDataModule)
  : PCDDataModule :=
  let s1 := set__train_names (slice_to train (train_size self)) self in
  let s2 := set__val_names val s1 in
  let s3 := set_train_dataset_attr
              (new_PCDDataset (slice_to train (train_size self))
                 (train_transform_x self) self) s2 in
  set_validation_dataset_attr
    (new_PCDDataset val (eval_transform_x self) self) s3.

(** The instance once the block of the stage [test] has run. *)
Definition after_test (test : list string) (self : PCDDataModule)
  : PCDDataModule :=
  set_test_dataset_attr (new_PCDDataset test (eval_transform_x self) self)
    (set__test_names test self).

(** The two blocks of [setup], by cases on what [get_names] returns. *)
Definition fit_block (self : PCDDataModule) : result unit * PCDDataModule :=
  match get_names (manifest self "train.json") with
  | Raise e => (Raise e, self)
  | Ok train =>
      match get_names (manifest self "validation.json") with
      | Raise e =>
          (Raise e, set__train_names (slice_to train (train_size self)) self)
      | Ok val => (Ok tt, after_fit train val self)
      end
  end.

Definition test_block (self : PCDDataModule) : result unit * PCDDataModule :=
  match get_names (manifest self "test.json") with
  | Raise e => (Raise e, self)
  | Ok test => (Ok tt, after_test test self)
  end.

Definition runs_fit (stage : option string) : bool :=
  in_tuple stage [None; Some "fit"].

Definition runs_test (stage : option string) : bool :=
  in_tuple stage [None; Some "test"].

(** The same blocks, for given results of the three calls of
    [get_names]. *)
Definition fit_with (r1 r2 : result (list string)) (self : PCDDataModule)
  : result unit * PCDDataModule :=
  match r1 with
  | Raise e => (Raise e, self)
  | Ok train =>
      match r2 with
      | Raise e =>
          (Raise e, set__train_names (slice_to train (train_size self)) self)
      | Ok val => (Ok tt, after_fit train val self)
      end
  end.

Definition test_with (r3 : result (list string)) (self : PCDDataModule)
  : result unit * PCDDataModule :=
  match r3 with
  | Raise e => (Raise e, self)
  | Ok test => (Ok tt, after_test test self)
  end.

Definition setup_with (fit test : bool) (r1 r2 r3 : result (list string))
    (self : PCDDataModule) : result unit * PCDDataModule :=
  match (if fit then fit_with r1 r2 self else (Ok tt, self)) with
  | (Raise e, s1) => (Raise e, s1)
  | (Ok _, s1) => if test then test_with r3 s1 else (Ok tt, s1)
  end.

(** The attributes bound by [__init__] are the same in two instances. *)
Definition same_config (s s' : PCDDataModule) : Prop :=
  path_to_X s' = path_to_X s /\ path_to_Y s' = path_to_Y s /\
  index_col s' = index_col s /\ labels s' = labels s /\
  train_transform_x s' = train_transform_x s /\
  eval_transform_x s' = eval_transform_x s /\
  transform_y s' = transform_y s /\ train_size s' = train_size s /\
  shuffle s' = shuffle s /\ train_batch_size s' = train_batch_size s /\
  eval_batch_size s' = eval_batch_size s /\
  config_dataloaders s' = config_dataloaders s /\
  _path_to_names s' = _path_to_names s.

(** A mapping that binds none of the given names. *)
Definition free_of (names : list string) (cfg : dict) : Prop :=
  forall k, In k names -> has_key k cfg = false.

(** The first key of [cfg], in its order, that the call binds itself. *)
Definition first_clash (explicit : list string) (cfg : dict) : option string :=
  find (fun k => existsb (String.eqb k) explicit) (keys cfg).

(** What calls of [setup] leave bound, for manifests that do not change:
    of the stage [fit] nothing, or the train names alone (the validation
    manifest cannot be read), or the names and the datasets of both
    splits; of the stage [test] nothing, or the names and the dataset. *)
Definition settled (self : PCDDataModule) : Prop :=
  let r1 := get_names (manifest self "train.json") in
  let r2 := get_names (manifest self "validation.json") in
  let r3 := get_names (manifest self "test.json") in
  ((_train_names self = None /\ _val_names self = None /\
    train_dataset self = None /\ validation_dataset self = None) \/
   (exists train e,
      r1 = Ok train /\ r2 = Raise e /\
      _train_names self = Some (slice_to train (train_size self)) /\
      _val_names self = None /\
      train_dataset self = None /\ validation_dataset self = None) \/
   (exists train val,
      r1 = Ok train /\ r2 = Ok val /\
      _train_names self = Some (slice_to train (train_size self)) /\
      _val_names self = Some val /\
      train_dataset self =
        Some (new_PCDDataset (slice_to train (train_size self))
                (train_transform_x self) self) /\
      validation_dataset self =
        Some (new_PCDDataset val (eval_transform_x self) self))) /\
  ((_test_names self = None /\ test_dataset self = None) \/
   (exists test,
      r3 = Ok test /\ _test_names self = Some test /\
      test_dataset self =
        Some (new_PCDDataset test (eval_transform_x self) self))).

End Model.

Arguments VNone {Callable}.
Arguments VBool {Callable}.
Arguments VInt {Callable}.
Arguments VStr {Callable}.
Arguments VDataset {Callable}.
Arguments has_key {Callable}.
Arguments keys {Callable}.
Arguments dict_get {Callable}.
Arguments dict_merge {Callable}.
Arguments call_DataLoader {Callable Loader}.
Arguments mkPCDDataModule {Callable}.
Arguments path_to_X {Callable}.
Arguments path_to_Y {Callable}.
Arguments index_col {Callable}.
Arguments labels {Callable}.
Arguments train_transform_x {Callable}.
Arguments eval_transform_x {Callable}.
Arguments transform_y {Callable}.
Arguments train_size {Callable}.
Arguments shuffle {Callable}.
Arguments train_batch_size {Callable}.
Arguments eval_batch_size {Callable}.
Arguments config_dataloaders {Callable}.
Arguments _path_to_names {Callable}.
Arguments _train_names {Callable}.
Arguments _val_names {Callable}.
Arguments _test_names {Callable}.
Arguments train_dataset {Callable}.
Arguments validation_dataset {Callable}.
Arguments test_dataset {Callable}.
Arguments __init__ {Callable}.
Arguments set__train_names {Callable}.
Arguments set__val_names {Callable}.
Arguments set__test_names {Callable}.
Arguments set_train_dataset_attr {Callable}.
Arguments set_validation_dataset_attr {Callable}.
Arguments set_test_dataset_attr {Callable}.
Arguments train_names {Callable}.
Arguments val_names {Callable}.
Arguments test_names {Callable}.
Arguments new_PCDDataset {Callable}.
Arguments set_train_dataset {Callable}.
Arguments set_validation_dataset {Callable}.
Arguments set_test_dataset {Callable}.
Arguments manifest_path {Callable}.
Arguments setup {Callable}.
Arguments train_dataloader {Callable Loader}.
Arguments val_dataloader {Callable Loader}.
Arguments test_dataloader {Callable Loader}.
Arguments predict_dataloader {Callable Loader}.
Arguments loader_for {Callable Loader}.
Arguments datasets {Callable}.
Arguments run_setups {Callable}.
Arguments free_of {Callable}.
Arguments first_clash {Callable}.
Arguments settled {Callable}.
Arguments fit_with {Callable}.
Arguments test_with {Callable}.
Arguments setup_with {Callable}.
Arguments same_config {Callable}.
Arguments manifest {Callable}.
Arguments configured {Callable}.
Arguments fresh {Callable}.
Arguments after_fit {Callable}.
Arguments after_test {Callable}.
Arguments fit_block {Callable}.
Arguments test_block {Callable}.

End datamodules.

(* ===================================================================== *)
(** ** [aidsorb.utils]: the archive builder *)
(* ===================================================================== *)

Module utils.
Import PosixPath.

Section Builder.

(** Coordinates are floating-point numbers; nothing here computes on
    them. *)
Variable coord : Type.

(** A point of a point cloud: [(x, y, z, atomic_number)]. *)
Record point : Type := mkPoint {
  px : coord; py : coord; pz : coord;
  atomic_number : Z
}.

Definition PointCloud : Type := list point.

(** The stored array: one row of four cells per atom. *)
Inductive cell : Type :=
| Coordinate (c : coord)
| Number (n : Z).

Definition row (p : point) : list cell :=
  [Coordinate (px p); Coordinate (py p); Coordinate (pz p);
   Number (atomic_number p)].

Definition array : Type := list (list cell).

Definition to_array (pcd : PointCloud) : array := map row pcd.

(** [a.shape] of a two-dimensional array with at least one row. *)
Definition shape (a : array) : nat * nat :=
  (List.length a, List.length (hd [] a)).

(** [a[:, -1]], read back as atomic numbers. *)
Definition last_column (a : array) : list Z :=
  flat_map (fun r => match last r (Number 0) with
                     | Number n => [n]
                     | Coordinate _ => []
                     end) a.

(** An archive: its named arrays, in stored order. *)
Definition archive : Type := list (string * array).

(** [np.load(outname).files] *)
Definition files (a : archive) : list string := map fst a.

(** [np.load(outname)[name]] *)
Fixpoint lookup (n : string) (a : archive) : option array :=
  match a with
  | [] => None
  | (k, v) :: a' => if String.eqb n k then Some v else lookup n a'
  end.

(** The archives on disk, by path. *)
Definition store : Type := string -> option archive.

Definition write (st : store) (outname : string) (a : archive) : store :=
  fun p => if String.eqb p outname then Some a else st p.

(** The parser of structure files is outside the core: a parameter that
    gives the atoms of the file at a path, or raises [ParseError]. *)
Variable read_structure : string -> result PointCloud.

(** [os.listdir]: the entries of a directory in its listing order. *)
Variable listdir : string -> list string.

(** Modelled from the spec: [pcd_from_file] of [aidsorb.utils] is not
    part of the sources at hand.  Given the path of a structure file it
    produces the pair of the file stem and of the point cloud. *)
Definition pcd_from_file (f : string) : result (string * array) :=
  match read_structure f with
  | Ok pcd => Ok (stem (parse f), to_array pcd)
  | Raise e => Raise e
  end.

(** Reading the files in input order; the first file that fails aborts
    the build. *)
Fixpoint read_all (fnames : list string) : result archive :=
  match fnames with
  | [] => Ok []
  | f :: rest =>
      match pcd_from_file f with
      | Raise _ => Raise (BuildError f)
      | Ok entry =>
          match read_all rest with
          | Ok pairs => Ok (entry :: pairs)
          | Raise e => Raise e
          end
      end
  end.

(** Taking the element at index [i] out of a list. *)
Fixpoint pick {A} (i : nat) (l : list A) : option (A * list A) :=
  match l with
  | [] => None
  | a :: l' =>
      match i with
      | O => Some (a, l')
      | S i' =>
          match pick i' l' with
          | Some (b, r) => Some (b, a :: r)
          | None => None
          end
      end
  end.

(** Modelled from the spec: the single random permutation applied to
    the collected pairs.  The random generator is the sequence of its
    draws; each draw selects the next element among the remaining ones. *)
Fixpoint permute_from {A} (n : nat) (draws : list nat) (l : list A) : list A :=
  match n with
  | O => l
  | S n' =>
      match pick (hd O draws mod List.length l) l with
      | Some (a, r) => a :: permute_from n' (tl draws) r
      | None => l
      end
  end.

Definition permute {A} (draws : list nat) (l : list A) : list A :=
  permute_from (List.length l) draws l.

(** Modelled from the spec: [pcd_from_files] of [aidsorb.utils] is not
    part of the sources at hand.  It reads each file, collects the
    pairs in input order, applies one random permutation to them when
    [shuffle] is set, and writes all the pairs to [outname] as one
    archive.  A file that cannot be read aborts the build and leaves the
    store as it was. *)
Definition pcd_from_files (fnames : list string) (outname : string)
    (shuffle : bool) (draws : list nat) (st : store) : result store :=
  match read_all fnames with
  | Raise e => Raise e
  | Ok pairs =>
      Ok (write st outname (if shuffle then permute draws pairs else pairs))
  end.

(** Modelled from the spec: [pcd_from_dir] of [aidsorb.utils] is not
    part of the sources at hand.  It is [pcd_from_files] over the files
    directly inside [dirname], in the listing order of the directory. *)
Definition pcd_from_dir (dirname : string) (outname : string)
    (shuffle : bool) (draws : list nat) (st : store) : result store :=
  pcd_from_files (map (os_path_join dirname) (listdir dirname))
    outname shuffle draws st.

End Builder.

Arguments mkPoint {coord}.
Arguments px {coord}.
Arguments py {coord}.
Arguments pz {coord}.
Arguments atomic_number {coord}.
Arguments Coordinate {coord}.
Arguments Number {coord}.
Arguments row {coord}.
Arguments to_array {coord}.
Arguments shape {coord}.
Arguments last_column {coord}.
Arguments files {coord}.
Arguments lookup {coord}.
Arguments write {coord}.
Arguments pcd_from_file {coord}.
Arguments read_all {coord}.
Arguments pcd_from_files {coord}.
Arguments pcd_from_dir {coord}.

End utils.

(* ===================================================================== *)
(** ** A concrete data directory *)
(* ===================================================================== *)

Module Scenario.
Import datamodules.

(** The directory [pcd_data] of the class documentation: the archive
    [pcds.npz] and the three manifests next to it. *)
Definition example_get_names (p : string) : result (list string) :=
  if String.eqb p "pcd_data/train.json" then Ok ["IRMOF-1"; "Cu-BTC"; "UiO-66"]
  else if String.eqb p "pcd_data/validation.json" then Ok ["MOF-5"]
  else if String.eqb p "pcd_data/test.json" then Ok ["ZIF-8"; "HKUST-1"]
  else Raise (OSError p).

(** [PCDDataModule('pcd_data/pcds.npz', 'pcd_data/labels.csv', 'id',
    ['y'], train_size=..., shuffle=True, config_dataloaders=...)] *)
Definition example_module (train_size : option Z) (cfg : option (dict unit))
  : PCDDataModule unit :=
  __init__ "pcd_data/pcds.npz" "pcd_data/labels.csv" "id" ["y"]
    train_size None None None true 32 32 cfg.

(** The two sample structures of the tests: 424 and 624 atoms, zinc
    (30) in the first one only. *)
Definition example_read_structure (f : string) : result (utils.PointCloud Z) :=
  if String.eqb f "tests/samples/IRMOF-1.xyz"
  then Ok (utils.mkPoint 0%Z 0%Z 0%Z 30%Z
           :: repeat (utils.mkPoint 1%Z 2%Z 3%Z 6%Z) 423)
  else if String.eqb f "tests/samples/Cu-BTC.cif"
  then Ok (utils.mkPoint 0%Z 0%Z 0%Z 29%Z
           :: repeat (utils.mkPoint 1%Z 2%Z 3%Z 8%Z) 623)
  else Raise (ParseError f).

Definition example_listdir (d : string) : list string :=
  if String.eqb d "tests/samples" then ["IRMOF-1.xyz"; "Cu-BTC.cif"] else [].

Definition empty_store : utils.store Z := fun _ => None.

(** A stand-in for the constructor of [DataLoader]: it refuses a batch
    size that is not positive, as the real one does, and otherwise
    returns the keyword arguments it was called with. *)
Definition example_DataLoader (kw : dict unit) : result (dict unit) :=
  match dict_get "batch_size" kw with
  | Some (VInt n) =>
      if (n <=? 0)%Z then Raise (ValueError "batch_size") else Ok kw
  | _ => Ok kw
  end.

End Scenario.

(* ===================================================================== *)
(** ** The data directory, damaged or changed *)
(* ===================================================================== *)

Module ScenarioMore.
Import datamodules.

(** [pcd_data] without its validation manifest. *)
Definition get_names_no_validation (p : string) : result (list string) :=
  if String.eqb p "pcd_data/train.json" then Ok ["IRMOF-1"; "Cu-BTC"; "UiO-66"]
  else if String.eqb p "pcd_data/test.json" then Ok ["ZIF-8"; "HKUST-1"]
  else Raise (OSError p).

(** [pcd_data] with another train manifest and the validation manifest
    gone. *)
Definition get_names_changed (p : string) : result (list string) :=
  if String.eqb p "pcd_data/train.json" then Ok ["MIL-53"; "NU-1000"]
  else if String.eqb p "pcd_data/test.json" then Ok ["ZIF-8"; "HKUST-1"]
  else Raise (OSError p).

(** [pcd_data] with other manifests, all readable. *)
Definition get_names_renewed (p : string) : result (list string) :=
  if String.eqb p "pcd_data/train.json" then Ok ["MIL-53"; "NU-1000"]
  else if String.eqb p "pcd_data/validation.json" then Ok ["ZIF-67"]
  else if String.eqb p "pcd_data/test.json" then Ok ["MOF-74"]
  else Raise (OSError p).

End ScenarioMore.

(* ===================================================================== *)
(** * Properties *)
(* ===================================================================== *)

Module PathExamples.
Import PosixPath.

Example split_ex : split "a//b/" = ["a"; ""; "b"; ""].
Proof. reflexivity. Qed.

Example parent_ex1 : str (parent (parse "pcd_data/pcds.npz")) = "pcd_data".
Proof. reflexivity. Qed.

Example parent_ex2 : str (parent (parse "pcds.npz")) = ".".
Proof. reflexivity. Qed.

Example parent_ex3 : str (parent (parse "/pcds.npz")) = "/".
Proof. reflexivity. Qed.

Example parent_ex4 : str (parent (parse "//a/./b//c.npz")) = "//a/b".
Proof. reflexivity. Qed.

Example join_ex1 : os_path_join "pcd_data" "train.json" = "pcd_data/train.json".
Proof. reflexivity. Qed.

Example join_ex2 : os_path_join "/" "train.json" = "/train.json".
Proof. reflexivity. Qed.

Example stem_ex1 : stem (parse "tests/samples/IRMOF-1.xyz") = "IRMOF-1".
Proof. reflexivity. Qed.

Example stem_ex2 : stem (parse "a/.hidden") = ".hidden".
Proof. reflexivity. Qed.

Example stem_ex3 : stem (parse "a/x.tar.gz") = "x.tar".
Proof. reflexivity. Qed.

Example stem_ex4 : stem (parse "a/x.") = "x.".
Proof. reflexivity. Qed.
End PathExamples.

(* ===================================================================== *)
(** ** Paths *)
(* ===================================================================== *)

Module PathFacts.
Import PosixPath.

Lemma append_assoc (a b c : string) :
  ((a ++ b) ++ c = a ++ (b ++ c))%string.
Proof. induction a as [|x a IH]; simpl; [reflexivity|now rewrite IH]. Qed.

Lemma split_not_nil (s : string) : split s <> [].
Proof.
  destruct s as [|c s]; simpl; [discriminate|].
  destruct (Ascii.eqb c sep); [discriminate|].
  destruct (split s); discriminate.
Qed.

Lemma split_app_sep (a b : string) :
  split (a ++ String sep b) = split a ++ split b.
Proof.
  induction a as [|c a IH]; simpl.
  - reflexivity.
  - rewrite IH. destruct (Ascii.eqb c sep); [reflexivity|].
    pose proof (split_not_nil a) as Hne.
    destruct (split a) as [|h t]; [congruence|reflexivity].
Qed.

Lemma split_no_sep (x : string) : has_sep x = false -> split x = [x].
Proof.
  induction x as [|c x IH]; simpl; intros H; [reflexivity|].
  apply orb_false_iff in H as [Hc Hx].
  rewrite Hc, (IH Hx). reflexivity.
Qed.

Lemma split_pieces (s : string) :
  Forall (fun x => has_sep x = false) (split s).
Proof.
  induction s as [|c s IH]; simpl.
  - constructor; [reflexivity|constructor].
  - destruct (Ascii.eqb c sep) eqn:Hc.
    + constructor; [reflexivity|exact IH].
    + pose proof (split_not_nil s) as Hne.
      destruct (split s) as [|h t]; [congruence|].
      inversion IH; subst. constructor; [|assumption].
      simpl. rewrite Hc. assumption.
Qed.

Lemma filter_split_sep (c : ascii) (r : string) :
  Ascii.eqb c sep = true ->
  filter kept (split (String c r)) = filter kept (split r).
Proof. intros H. simpl. rewrite H. reflexivity. Qed.

(** Dropping the leading slashes only drops empty components. *)
Lemma tail_parse (s : string) : tail (parse s) = filter kept (split s).
Proof.
  unfold parse, splitroot.
  destruct s as [|c1 r1]; [reflexivity|].
  destruct (Ascii.eqb c1 sep) eqn:H1; [|reflexivity].
  rewrite (filter_split_sep _ _ H1).
  destruct r1 as [|c2 r2]; [reflexivity|].
  destruct (Ascii.eqb c2 sep) eqn:H2; [|reflexivity].
  destruct r2 as [|c3 r3].
  - simpl tail. rewrite (filter_split_sep _ _ H2). reflexivity.
  - destruct (Ascii.eqb c3 sep) eqn:H3; simpl tail.
    + reflexivity.
    + rewrite (filter_split_sep _ (String c3 r3) H2). reflexivity.
Qed.

Lemma root_parse (s : string) : is_root (root (parse s)).
Proof.
  unfold parse, splitroot, is_root.
  destruct s as [|c1 [|c2 [|c3 r3]]]; simpl; auto;
    repeat match goal with
    | |- context [Ascii.eqb ?c sep] => destruct (Ascii.eqb c sep)
    end; simpl; auto.
Qed.

Lemma parse_wf (s : string) : wf (parse s).
Proof.
  split; [apply root_parse|].
  rewrite tail_parse. apply Forall_forall. intros x Hx.
  apply filter_In in Hx as [Hin Hk].
  split; [|exact Hk].
  pose proof (split_pieces s) as Hp.
  rewrite Forall_forall in Hp. apply Hp, Hin.
Qed.

Lemma Forall_removelast {A} (P : A -> Prop) (l : list A) :
  Forall P l -> Forall P (removelast l).
Proof.
  induction 1 as [|x l Hx Hl IH]; simpl; [constructor|].
  destruct l; [constructor|]. constructor; assumption.
Qed.

Lemma parent_wf (p : Path) : wf p -> wf (parent p).
Proof.
  destruct p as [r t]. unfold wf, parent. cbn [root tail]. intros [Hr Ht].
  destruct t as [|x t]; [split; assumption|].
  split; [exact Hr|]. cbn [tail]. apply Forall_removelast. exact Ht.
Qed.

Lemma component_shape (x : string) :
  component x ->
  exists c r, x = String c r /\ Ascii.eqb c sep = false /\ has_sep r = false.
Proof.
  intros [Hs Hk]. destruct x as [|c r]; [discriminate Hk|].
  simpl in Hs. apply orb_false_iff in Hs as [Hc Hr].
  exists c, r. auto.
Qed.

Lemma join_app_last (t : list string) (n : string) :
  t <> [] -> join (t ++ [n]) = (join t ++ String sep n)%string.
Proof.
  induction t as [|x t IH]; [congruence|]. intros _.
  destruct t as [|y t].
  - reflexivity.
  - change (join ((x :: y :: t) ++ [n]))
      with (x ++ String sep (join ((y :: t) ++ [n])))%string.
    rewrite IH by discriminate.
    change (join (x :: y :: t)) with (x ++ String sep (join (y :: t)))%string.
    rewrite append_assoc. reflexivity.
Qed.

Lemma filter_kept_components (t : list string) :
  Forall component t -> filter kept t = t.
Proof.
  induction 1 as [|x t [_ Hk] _ IH]; simpl; [reflexivity|].
  rewrite Hk, IH. reflexivity.
Qed.

Lemma split_join (t : list string) :
  Forall component t -> t <> [] -> split (join t) = t.
Proof.
  induction 1 as [|x t Hx Ht IH]; [congruence|]. intros _.
  destruct t as [|y t].
  - simpl. apply split_no_sep, Hx.
  - change (join (x :: y :: t)) with (x ++ String sep (join (y :: t)))%string.
    rewrite split_app_sep, IH by discriminate.
    rewrite (split_no_sep x) by apply Hx. reflexivity.
Qed.

(** The text of a path whose components are non-empty starts with the
    first character of its first component. *)
Lemma join_shape (t : list string) :
  Forall component t -> t <> [] ->
  exists c r, join t = String c r /\ Ascii.eqb c sep = false.
Proof.
  intros Ht Hne. destruct t as [|x t]; [congruence|].
  inversion Ht as [|? ? Hx Ht']; subst.
  destruct (component_shape _ Hx) as (c & r & -> & Hc & _).
  destruct t; simpl; eauto.
Qed.

Lemma splitroot_rel (c : ascii) (r : string) :
  Ascii.eqb c sep = false -> splitroot (String c r) = ("", String c r).
Proof. intros H. unfold splitroot. rewrite H. reflexivity. Qed.

Lemma splitroot_one (c : ascii) (r : string) :
  Ascii.eqb c sep = false ->
  splitroot (String sep (String c r)) = ("/", String c r).
Proof.
  intros H. unfold splitroot.
  change (Ascii.eqb sep sep) with true. cbv iota. rewrite H. reflexivity.
Qed.

Lemma splitroot_two (c : ascii) (r : string) :
  Ascii.eqb c sep = false ->
  splitroot (String sep (String sep (String c r))) = ("//", String c r).
Proof.
  intros H. unfold splitroot.
  change (Ascii.eqb sep sep) with true. cbv iota. rewrite H. reflexivity.
Qed.

(** [Path(str(p)) == p] *)
Lemma parse_str (p : Path) : wf p -> parse (str p) = p.
Proof.
  destruct p as [r t]. intros [Hr Ht]. cbn [root tail] in Hr, Ht.
  destruct t as [|x t'].
  - destruct Hr as [->|[->| ->]]; reflexivity.
  - assert (Hne : x :: t' <> []) by discriminate.
    destruct (join_shape _ Ht Hne) as (c & rest & Hj & Hc).
    assert (Hf : filter kept (split (join (x :: t'))) = x :: t').
    { rewrite split_join by assumption. apply filter_kept_components, Ht. }
    assert (Hs : forall r0, str (mkPath r0 (x :: t'))
                            = (r0 ++ join (x :: t'))%string).
    { intros r0. unfold str. cbn [root tail]. destruct r0; reflexivity. }
    rewrite Hs. unfold parse.
    destruct Hr as [->|[->| ->]]; cbn [append]; rewrite Hj.
    + rewrite (splitroot_rel _ _ Hc), <- Hj, Hf. reflexivity.
    + rewrite (splitroot_one _ _ Hc), <- Hj, Hf. reflexivity.
    + rewrite (splitroot_two _ _ Hc), <- Hj, Hf. reflexivity.
Qed.

Lemma component_startswith (n : string) :
  component n -> startswith_sep n = false.
Proof.
  intros H. destruct (component_shape _ H) as (c & r & -> & Hc & _).
  exact Hc.
Qed.

Lemma endswith_no_sep (x : string) : has_sep x = false -> endswith_sep x = false.
Proof.
  induction x as [|c x IH]; [reflexivity|]. simpl. intros H.
  apply orb_false_iff in H as [Hc Hx].
  destruct x; [exact Hc|]. apply IH, Hx.
Qed.

Lemma endswith_app (a : string) (c : ascii) (b : string) :
  endswith_sep (a ++ String c b) = endswith_sep (String c b).
Proof.
  induction a as [|x a IH]; [reflexivity|].
  change (String x a ++ String c b)%string with (String x (a ++ String c b)).
  cbn [endswith_sep]. destruct (a ++ String c b)%string eqn:E.
  - destruct a; discriminate E.
  - exact IH.
Qed.

Lemma endswith_join (t : list string) :
  Forall component t -> endswith_sep (join t) = false.
Proof.
  induction 1 as [|x t Hx Ht IH]; [reflexivity|].
  destruct t as [|y t].
  - apply endswith_no_sep, Hx.
  - change (join (x :: y :: t)) with (x ++ String sep (join (y :: t)))%string.
    rewrite endswith_app.
    destruct (join_shape (y :: t) Ht) as (c & r & Hj & _); [discriminate|].
    rewrite Hj in *. exact IH.
Qed.

Lemma endswith_inv (a : string) :
  endswith_sep a = true -> exists a', a = (a' ++ String sep "")%string.
Proof.
  induction a as [|c a IH]; [discriminate|].
  destruct a as [|c' a].
  - simpl. intros H. apply Ascii.eqb_eq in H. subst c. exists "". reflexivity.
  - intros H. change (endswith_sep (String c' a) = true) in H.
    destruct (IH H) as [a' E]. exists (String c a'). simpl. now rewrite <- E.
Qed.

Lemma os_path_join_rel (a n : string) :
  startswith_sep n = false -> a <> "" -> endswith_sep a = false ->
  os_path_join a n = (a ++ String sep n)%string.
Proof.
  intros Hn Ha He. unfold os_path_join. rewrite Hn, He.
  apply String.eqb_neq in Ha. rewrite Ha. reflexivity.
Qed.

Lemma os_path_join_slash (a n : string) :
  startswith_sep n = false -> endswith_sep a = true ->
  os_path_join a n = (a ++ n)%string.
Proof.
  intros Hn He. unfold os_path_join. rewrite Hn, He, orb_true_r. reflexivity.
Qed.

(** The child [n] of the directory [p], written with [os.path.join],
    parses to the components of [p] followed by [n]. *)
Lemma parse_join_child (p : Path) (n : string) :
  wf p -> component n ->
  parse (os_path_join (str p) n) = mkPath (root p) (tail p ++ [n]).
Proof.
  intros Hwf Hn. pose proof (component_startswith _ Hn) as Hsw.
  destruct p as [r t]. destruct Hwf as [Hr Ht]. cbn [root tail] in *.
  assert (Hchild : wf (mkPath r (t ++ [n]))).
  { split; [exact Hr|]. cbn [tail]. apply Forall_app. split; auto. }
  destruct t as [|x t'].
  - destruct Hr as [->|[->| ->]].
    + (* "." *)
      change (str (mkPath "" [])) with ".".
      rewrite os_path_join_rel by (auto; discriminate).
      unfold parse.
      change ("." ++ String sep n)%string with (String "."%char (String sep n)).
      rewrite splitroot_rel by reflexivity.
      change (String "."%char (String sep n)) with ("." ++ String sep n)%string.
      rewrite split_app_sep, (split_no_sep n) by apply Hn.
      simpl. destruct Hn as [_ ->]. reflexivity.
    + change (str (mkPath "/" [])) with "/".
      rewrite os_path_join_slash by auto.
      rewrite <- (parse_str _ Hchild). reflexivity.
    + change (str (mkPath "//" [])) with "//".
      rewrite os_path_join_slash by auto.
      rewrite <- (parse_str _ Hchild). reflexivity.
  - assert (Hne : x :: t' <> []) by discriminate.
    assert (Hs : forall l, l <> [] ->
                 str (mkPath r l) = (r ++ join l)%string).
    { intros l Hl. unfold str. cbn [root tail].
      destruct r; [destruct l; [congruence|reflexivity]|reflexivity]. }
    destruct (join_shape _ Ht Hne) as (c & rest & Hj & Hc).
    rewrite <- (parse_str _ Hchild).
    rewrite (Hs _ Hne), Hs by (destruct t'; discriminate).
    rewrite os_path_join_rel.
    + rewrite join_app_last by exact Hne. rewrite append_assoc. reflexivity.
    + exact Hsw.
    + rewrite Hj. destruct r; discriminate.
    + rewrite Hj, endswith_app, <- Hj. apply endswith_join, Ht.
Qed.

(** The name and the parent of such a child. *)
Lemma name_join_child (p : Path) (n : string) :
  wf p -> component n -> name (parse (os_path_join (str p) n)) = n.
Proof.
  intros Hp Hn. rewrite parse_join_child by assumption.
  unfold name. cbn [tail]. apply last_last.
Qed.

Lemma parent_join_child (p : Path) (n : string) :
  wf p -> component n -> parent (parse (os_path_join (str p) n)) = p.
Proof.
  intros Hp Hn. rewrite parse_join_child by assumption.
  unfold parent. cbn [root tail].
  destruct (tail p ++ [n]) eqn:E.
  - destruct (tail p); discriminate E.
  - rewrite <- E, removelast_last. destruct p; reflexivity.
Qed.

(** The name of a directory entry does not depend on how the directory
    itself is written. *)
Lemma name_join_entry (dir f : string) :
  component f -> name (parse (os_path_join dir f)) = f.
Proof.
  intros Hf. pose proof (component_startswith _ Hf) as Hsw.
  unfold name. rewrite tail_parse.
  assert (Hlast : forall d, last (filter kept (split d ++ [f])) "" = f).
  { intros d. rewrite filter_app. simpl. destruct Hf as [_ ->].
    apply last_last. }
  destruct (String.eqb_spec dir "") as [->|Hd].
  - unfold os_path_join. rewrite Hsw. simpl.
    rewrite (split_no_sep f) by apply Hf. apply (Hlast "").
  - destruct (endswith_sep dir) eqn:He.
    + rewrite os_path_join_slash by assumption.
      destruct (endswith_inv _ He) as [d' ->].
      rewrite append_assoc. cbn [append].
      rewrite split_app_sep, (split_no_sep f) by apply Hf. apply Hlast.
    + rewrite os_path_join_rel by assumption.
      rewrite split_app_sep, (split_no_sep f) by apply Hf. apply Hlast.
Qed.

Lemma name_single (f : string) : component f -> name (parse f) = f.
Proof.
  intros Hf. unfold name. rewrite tail_parse.
  rewrite (split_no_sep f) by apply Hf. simpl.
  destruct Hf as [_ ->]. reflexivity.
Qed.

Lemma stem_join_entry (dir f : string) :
  component f -> stem (parse (os_path_join dir f)) = stem (parse f).
Proof.
  intros Hf. unfold stem. now rewrite name_join_entry, name_single.
Qed.

End PathFacts.

(* ===================================================================== *)
(** ** The data module *)
(* ===================================================================== *)

Module datamodules_facts.
Import PosixPath PathFacts datamodules.

Section Facts.

Variable Callable : Type.
Variable get_names : string -> result (list string).

Local Abbreviation PCDDataModule := (datamodules.PCDDataModule Callable).
Local Abbreviation setup := (datamodules.setup get_names).
Local Abbreviation fit_block := (datamodules.fit_block get_names).
Local Abbreviation test_block := (datamodules.test_block get_names).

Lemma setup_blocks (stage : option string) (self : PCDDataModule) :
  setup stage self =
  match (if runs_fit stage then fit_block self else (Ok tt, self)) with
  | (Raise e, s1) => (Raise e, s1)
  | (Ok _, s1) => if runs_test stage then test_block s1 else (Ok tt, s1)
  end.
Proof.
  unfold datamodules.setup, runs_fit, runs_test, datamodules.fit_block,
    datamodules.test_block, manifest, bind.
  destruct (in_tuple stage [None; Some "fit"]);
    destruct (in_tuple stage [None; Some "test"]);
    unfold manifest_path, set_train_dataset, set_validation_dataset,
      set_test_dataset, train_names, val_names, test_names, bind, attr,
      getattr, lift, modify, ret; cbn;
    repeat match goal with
      | |- context [get_names ?p] => destruct (get_names p); cbn
      end; reflexivity.
Qed.


Lemma init_configured
    (pX pY ic : string) (ls : list string) (ts : option Z)
    (ttx etx ty : option Callable) (sh : bool) (tb eb : Z)
    (cfg : option (dict Callable)) :
  configured (__init__ pX pY ic ls ts ttx etx ty sh tb eb cfg).
Proof. reflexivity. Qed.

Lemma init_fresh
    (pX pY ic : string) (ls : list string) (ts : option Z)
    (ttx etx ty : option Callable) (sh : bool) (tb eb : Z)
    (cfg : option (dict Callable)) :
  fresh (__init__ pX pY ic ls ts ttx etx ty sh tb eb cfg).
Proof. repeat split. Qed.

(** The slice [names[:train_size]] *)
Lemma slice_to_None {A} (l : list A) : slice_to l None = l.
Proof.
  unfold slice_to, adjust_stop, len. rewrite Nat2Z.id. apply firstn_all.
Qed.

Lemma slice_to_nonneg {A} (l : list A) (n : Z) :
  (0 <= n)%Z -> slice_to l (Some n) = firstn (Z.to_nat n) l.
Proof.
  intros Hn. unfold slice_to, adjust_stop, len.
  destruct (Z.ltb_spec n 0); [lia|].
  destruct (Z.leb_spec (Z.of_nat (List.length l)) n); [|reflexivity].
  rewrite Nat2Z.id, firstn_all. symmetry. apply firstn_all2. lia.
Qed.

Lemma slice_to_beyond {A} (l : list A) (n : Z) :
  (len l <= n)%Z -> slice_to l (Some n) = l.
Proof.
  intros Hn. unfold len in Hn. rewrite slice_to_nonneg by lia.
  apply firstn_all2. lia.
Qed.

Lemma slice_to_negative {A} (l : list A) (n : Z) :
  (n < 0)%Z ->
  slice_to l (Some n) = firstn (List.length l - Z.to_nat (- n)) l.
Proof.
  intros Hn. unfold slice_to, adjust_stop, len.
  destruct (Z.ltb_spec n 0); [|lia].
  destruct (Z.ltb_spec (n + Z.of_nat (List.length l)) 0); f_equal; lia.
Qed.

Lemma slice_to_length {A} (l : list A) (stop : option Z) :
  (List.length (slice_to l stop) <= List.length l)%nat.
Proof. unfold slice_to. rewrite length_firstn. lia. Qed.

(** The attributes after the two blocks. *)
Lemma after_fit_attrs (train val : list string) (self : PCDDataModule) :
  let self' := after_fit train val self in
  _train_names self' = Some (slice_to train (train_size self)) /\
  _val_names self' = Some val /\
  train_dataset self' =
    Some (data.mkPCDDataset (slice_to train (train_size self))
            (path_to_X self) (path_to_Y self) (index_col self) (labels self)
            (train_transform_x self) (transform_y self)) /\
  validation_dataset self' =
    Some (data.mkPCDDataset val
            (path_to_X self) (path_to_Y self) (index_col self) (labels self)
            (eval_transform_x self) (transform_y self)) /\
  _test_names self' = _test_names self /\
  test_dataset self' = test_dataset self.
Proof. repeat split. Qed.

Lemma after_test_attrs (test : list string) (self : PCDDataModule) :
  let self' := after_test test self in
  _test_names self' = Some test /\
  test_dataset self' =
    Some (data.mkPCDDataset test
            (path_to_X self) (path_to_Y self) (index_col self) (labels self)
            (eval_transform_x self) (transform_y self)) /\
  _train_names self' = _train_names self /\
  _val_names self' = _val_names self /\
  train_dataset self' = train_dataset self /\
  validation_dataset self' = validation_dataset self.
Proof. repeat split. Qed.

(** The attributes bound by [__init__] are never bound again. *)
Lemma same_config_refl (s : PCDDataModule) : same_config s s.
Proof. repeat split. Qed.

Lemma same_config_trans (s1 s2 s3 : PCDDataModule) :
  same_config s1 s2 -> same_config s2 s3 -> same_config s1 s3.
Proof. unfold same_config. intuition congruence. Qed.

Lemma fit_block_config (self : PCDDataModule) :
  same_config self (snd (fit_block self)).
Proof.
  unfold datamodules.fit_block.
  destruct (get_names _); [|apply same_config_refl].
  destruct (get_names _); repeat split.
Qed.

Lemma test_block_config (self : PCDDataModule) :
  same_config self (snd (test_block self)).
Proof.
  unfold datamodules.test_block.
  destruct (get_names _); repeat split.
Qed.

Lemma setup_config (stage : option string) (self : PCDDataModule) :
  same_config self (snd (setup stage self)).
Proof.
  rewrite setup_blocks.
  destruct (runs_fit stage).
  - pose proof (fit_block_config self) as H1.
    destruct (fit_block self) as [[[]|e] s1]; cbn [snd] in *; [|exact H1].
    destruct (runs_test stage); [|exact H1].
    eapply same_config_trans; [exact H1|apply test_block_config].
  - destruct (runs_test stage); [apply test_block_config|apply same_config_refl].
Qed.

Lemma setup_configured (stage : option string) (self : PCDDataModule) :
  configured self -> configured (snd (setup stage self)).
Proof.
  unfold configured. intros H.
  destruct (setup_config stage self) as (-> & _ & _ & _ & _ & _ & _ & _ & _ & _ & _ & _ & ->).
  exact H.
Qed.

(** A manifest is a sibling of the archive. *)
Lemma manifest_sibling (self : PCDDataModule) (file : string) :
  configured self -> component file ->
  name (parse (manifest self file)) = file /\
  parent (parse (manifest self file)) = parent (parse (path_to_X self)).
Proof.
  intros Hc Hf. unfold manifest. rewrite Hc.
  assert (Hwf : wf (parent (parse (path_to_X self))))
    by apply parent_wf, parse_wf.
  split; [apply name_join_child|apply parent_join_child]; assumption.
Qed.

Lemma runs_fit_iff (stage : option string) :
  runs_fit stage = true <-> stage = None \/ stage = Some "fit".
Proof.
  unfold runs_fit, in_tuple. cbn [existsb]. rewrite !orb_true_iff.
  destruct stage as [st|]; cbn [opt_string_eqb].
  - rewrite String.eqb_eq. split.
    + intros [H|[H|H]]; try discriminate. right. now subst.
    + intros [H|H]; [discriminate|]. right. left. now inversion H.
  - split; auto.
Qed.

Lemma runs_test_iff (stage : option string) :
  runs_test stage = true <-> stage = None \/ stage = Some "test".
Proof.
  unfold runs_test, in_tuple. cbn [existsb]. rewrite !orb_true_iff.
  destruct stage as [st|]; cbn [opt_string_eqb].
  - rewrite String.eqb_eq. split.
    + intros [H|[H|H]]; try discriminate. right. now subst.
    + intros [H|H]; [discriminate|]. right. left. now inversion H.
  - split; auto.
Qed.

(** The manifests are read from where [__init__] said, whatever [setup]
    has bound in between. *)
Lemma manifest_same_config (s s' : PCDDataModule) (file : string) :
  same_config s s' -> manifest s' file = manifest s file.
Proof.
  intros H. unfold manifest.
  destruct H as (_ & _ & _ & _ & _ & _ & _ & _ & _ & _ & _ & _ & ->).
  reflexivity.
Qed.

Lemma fit_block_ok (self : PCDDataModule) (train val : list string) :
  get_names (manifest self "train.json") = Ok train ->
  get_names (manifest self "validation.json") = Ok val ->
  fit_block self = (Ok tt, after_fit train val self).
Proof.
  intros H1 H2. unfold datamodules.fit_block. now rewrite H1, H2.
Qed.

Lemma test_block_ok (self : PCDDataModule) (test : list string) :
  get_names (manifest self "test.json") = Ok test ->
  test_block self = (Ok tt, after_test test self).
Proof.
  intros H. unfold datamodules.test_block. now rewrite H.
Qed.

(** C1. [setup] with [stage] equal to [None] or ['fit'] reads the train
    manifest from [train.json] and the validation manifest from
    [validation.json], both in the parent directory of [path_to_X]; it
    keeps the first [train_size] names of the train manifest
    ([train_size=None]: all of them) and every name of the validation
    manifest, and it builds the train and the validation dataset from
    these names.  With [stage] equal to [None] or ['test'] it reads
    [test.json] in the same directory and builds the test dataset. *)
Theorem setup_loads_manifests
    (self : PCDDataModule) (stage : option string)
    (train val test : list string) :
  configured self ->
  (stage = None \/ stage = Some "fit" ->
     get_names (manifest self "train.json") = Ok train /\
     get_names (manifest self "validation.json") = Ok val) ->
  (stage = None \/ stage = Some "test" ->
     get_names (manifest self "test.json") = Ok test) ->
  (forall file, In file ["train.json"; "validation.json"; "test.json"] ->
     name (parse (manifest self file)) = file /\
     parent (parse (manifest self file)) = parent (parse (path_to_X self))) /\
  exists self',
    setup stage self = (Ok tt, self') /\
    (stage = None \/ stage = Some "fit" ->
       let kept_names := slice_to train (train_size self) in
       (train_size self = None -> kept_names = train) /\
       (forall n, train_size self = Some n -> (0 <= n)%Z ->
          kept_names = firstn (Z.to_nat n) train) /\
       _train_names self' = Some kept_names /\
       _val_names self' = Some val /\
       train_dataset self' =
         Some (data.mkPCDDataset kept_names
                 (path_to_X self) (path_to_Y self) (index_col self)
                 (labels self) (train_transform_x self) (transform_y self)) /\
       validation_dataset self' =
         Some (data.mkPCDDataset val
                 (path_to_X self) (path_to_Y self) (index_col self)
                 (labels self) (eval_transform_x self) (transform_y self))) /\
    (stage = None \/ stage = Some "test" ->
       _test_names self' = Some test /\
       test_dataset self' =
         Some (data.mkPCDDataset test
                 (path_to_X self) (path_to_Y self) (index_col self)
                 (labels self) (eval_transform_x self) (transform_y self))).
Proof.
  intros Hc Hfit Htest. split.
  { intros file Hin. apply manifest_sibling; [exact Hc|].
    cbn in Hin. destruct Hin as [<-|[<-|[<-|[]]]]; split; reflexivity. }
  assert (Hslice :
    (train_size self = None -> slice_to train (train_size self) = train) /\
    (forall n, train_size self = Some n -> (0 <= n)%Z ->
       slice_to train (train_size self) = firstn (Z.to_nat n) train)).
  { split.
    - intros ->. apply slice_to_None.
    - intros n -> Hn. apply slice_to_nonneg, Hn. }
  destruct Hslice as [Hs1 Hs2].
  rewrite setup_blocks.
  destruct (runs_fit stage) eqn:Ef; destruct (runs_test stage) eqn:Et.
  - destruct (Hfit (proj1 (runs_fit_iff stage) Ef)) as [H1 H2].
    pose proof (Htest (proj1 (runs_test_iff stage) Et)) as H3.
    rewrite (fit_block_ok _ _ _ H1 H2).
    rewrite (test_block_ok (after_fit train val self) _ H3).
    eexists. split; [reflexivity|]. split; intros _; repeat split; auto.
  - destruct (Hfit (proj1 (runs_fit_iff stage) Ef)) as [H1 H2].
    rewrite (fit_block_ok _ _ _ H1 H2).
    eexists. split; [reflexivity|]. split.
    + intros _. repeat split; auto.
    + intros H. apply runs_test_iff in H. congruence.
  - pose proof (Htest (proj1 (runs_test_iff stage) Et)) as H3.
    rewrite (test_block_ok _ _ H3).
    eexists. split; [reflexivity|]. split.
    + intros H. apply runs_fit_iff in H. congruence.
    + intros _. repeat split; auto.
  - eexists. split; [reflexivity|]. split; intros H.
    + apply runs_fit_iff in H. congruence.
    + apply runs_test_iff in H. congruence.
Qed.

Lemma fit_with_config (r1 r2 : result (list string)) (s : PCDDataModule) :
  same_config s (snd (fit_with r1 r2 s)).
Proof. destruct r1, r2; repeat split. Qed.

Lemma setup_as_with (stage : option string) (s0 s : PCDDataModule) :
  same_config s0 s ->
  setup stage s =
  setup_with (runs_fit stage) (runs_test stage)
    (get_names (manifest s0 "train.json"))
    (get_names (manifest s0 "validation.json"))
    (get_names (manifest s0 "test.json")) s.
Proof.
  intros H. rewrite setup_blocks. unfold setup_with.
  assert (Hfit : fit_block s =
                 fit_with (get_names (manifest s0 "train.json"))
                   (get_names (manifest s0 "validation.json")) s).
  { unfold datamodules.fit_block, fit_with.
    now rewrite !(manifest_same_config s0 s _ H). }
  rewrite Hfit.
  destruct (runs_fit stage).
  - pose proof (fit_with_config (get_names (manifest s0 "train.json"))
                  (get_names (manifest s0 "validation.json")) s) as H1.
    destruct (fit_with _ _ s) as [[[]|e] s1]; [|reflexivity].
    cbn [snd] in H1.
    destruct (runs_test stage); [|reflexivity].
    unfold datamodules.test_block, test_with.
    now rewrite (manifest_same_config s0 s1 _ (same_config_trans _ _ _ H H1)).
  - destruct (runs_test stage); [|reflexivity].
    unfold datamodules.test_block, test_with.
    now rewrite (manifest_same_config s0 s _ H).
Qed.

Lemma setup_with_idempotent (fit test : bool)
    (r1 r2 r3 : result (list string)) (s : PCDDataModule) :
  setup_with fit test r1 r2 r3 (snd (setup_with fit test r1 r2 r3 s))
  = setup_with fit test r1 r2 r3 s.
Proof.
  destruct s, fit, test, r1 as [train|e1], r2 as [val|e2], r3 as [tst|e3];
    reflexivity.
Qed.

(** C7. Calling [setup] a second time with the same stage, the
    manifest files being what they were, leaves the result and the
    instance of the first call: the same names and the same datasets are
    derived again.  This holds for every stage, [None], ['fit'] and
    ['test'] among them, and also when a manifest cannot be read. *)
Theorem setup_idempotent (self : PCDDataModule) (stage : option string) :
  setup stage (snd (setup stage self)) = setup stage self.
Proof.
  rewrite (setup_as_with stage self (snd (setup stage self)))
    by apply setup_config.
  rewrite (setup_as_with stage self self) by apply same_config_refl.
  apply setup_with_idempotent.
Qed.

(** *** Keyword arguments *)

(** The loaders of the batching engine and its constructor. *)
Variable Loader : Type.
Variable DataLoader : dict Callable -> result Loader.

Local Abbreviation call_DataLoader := (datamodules.call_DataLoader DataLoader).
Local Abbreviation train_dataloader := (datamodules.train_dataloader DataLoader).
Local Abbreviation val_dataloader := (datamodules.val_dataloader DataLoader).
Local Abbreviation test_dataloader := (datamodules.test_dataloader DataLoader).
Local Abbreviation loader_for := (datamodules.loader_for DataLoader).

Lemma has_key_app (k : string) (a b : dict Callable) :
  has_key k (a ++ b) = has_key k a || has_key k b.
Proof. apply existsb_app. Qed.

Lemma has_key_In (k : string) (d : dict Callable) :
  has_key k d = true <-> In k (keys d).
Proof.
  unfold has_key, keys. rewrite existsb_exists, in_map_iff. split.
  - intros [kv [Hin He]]. apply String.eqb_eq in He. eauto.
  - intros [kv [He Hin]]. exists kv. split; [exact Hin|].
    apply String.eqb_eq. auto.
Qed.

(** Without a clash the call receives the explicit arguments followed
    by the items of the mapping. *)
Lemma dict_merge_ok (d kw : dict Callable) :
  NoDup (keys d) ->
  (forall k, has_key k kw = true -> has_key k d = false) ->
  dict_merge kw d = Ok (kw ++ d).
Proof.
  revert kw. induction d as [|[k v] d IH]; intros kw Hnd Hdis; cbn.
  - now rewrite app_nil_r.
  - cbn in Hnd. inversion Hnd as [|? ? Hk Hnd']; subst.
    destruct (has_key k kw) eqn:E.
    + specialize (Hdis k E). cbn in Hdis. now rewrite String.eqb_refl in Hdis.
    + rewrite IH; [now rewrite <- app_assoc|exact Hnd'|].
      intros k' Hk'. rewrite has_key_app in Hk'.
      apply orb_true_iff in Hk' as [Hk'|Hk'].
      * specialize (Hdis k' Hk'). cbn in Hdis.
        now apply orb_false_iff in Hdis.
      * cbn in Hk'. rewrite orb_false_r in Hk'. apply String.eqb_eq in Hk'.
        subst k'. destruct (has_key k d) eqn:E'; [|reflexivity].
        apply has_key_In in E'. contradiction.
Qed.

Lemma has_key_cons (k k1 : string) (v : value Callable) (d : dict Callable) :
  has_key k ((k1, v) :: d) = String.eqb k k1 || has_key k d.
Proof. reflexivity. Qed.

(** A key bound twice stops the call. *)
Lemma dict_merge_clash (d kw : dict Callable) (k : string) :
  has_key k kw = true -> has_key k d = true ->
  exists k', dict_merge kw d = Raise (TypeError_multiple_values k') /\
             has_key k' d = true.
Proof.
  revert kw. induction d as [|[k1 v] d IH]; intros kw Hkw Hd.
  - discriminate.
  - cbn [dict_merge]. destruct (has_key k1 kw) eqn:E.
    + exists k1. split; [reflexivity|].
      now rewrite has_key_cons, String.eqb_refl.
    + rewrite has_key_cons in Hd.
      destruct (String.eqb_spec k k1) as [->|Hne]; [congruence|].
      cbn [orb] in Hd.
      destruct (IH (kw ++ [(k1, v)])) as [k' [Hm Hk']].
      * rewrite has_key_app, Hkw. reflexivity.
      * exact Hd.
      * exists k'. split; [exact Hm|].
        rewrite has_key_cons, Hk'. apply orb_true_r.
Qed.

Lemma call_DataLoader_ok (kw d : dict Callable) :
  NoDup (keys d) ->
  (forall k, has_key k kw = true -> has_key k d = false) ->
  call_DataLoader kw d = DataLoader (kw ++ d).
Proof.
  intros H1 H2. unfold datamodules.call_DataLoader. now rewrite dict_merge_ok.
Qed.

Lemma call_DataLoader_clash (kw d : dict Callable) (k : string) :
  has_key k kw = true -> has_key k d = true ->
  exists k', call_DataLoader kw d = Raise (TypeError_multiple_values k') /\
             has_key k' d = true.
Proof.
  intros H1 H2. destruct (dict_merge_clash d kw k H1 H2) as [k' [Hm Hk']].
  exists k'. unfold datamodules.call_DataLoader. now rewrite Hm.
Qed.

(** The merge either passes all the arguments on or stops on a key of
    the mapping. *)
Lemma dict_merge_cases (d kw : dict Callable) :
  dict_merge kw d = Ok (kw ++ d) \/
  exists k, has_key k d = true /\
            dict_merge kw d = Raise (TypeError_multiple_values k).
Proof.
  revert kw. induction d as [|[k v] d IH]; intros kw.
  - left. cbn. now rewrite app_nil_r.
  - cbn [dict_merge]. destruct (has_key k kw).
    + right. exists k. split; [|reflexivity].
      now rewrite has_key_cons, String.eqb_refl.
    + destruct (IH (kw ++ [(k, v)])) as [H|[k' [Hk' H]]].
      * left. rewrite H. now rewrite <- app_assoc.
      * right. exists k'. split; [|exact H].
        rewrite has_key_cons, Hk'. apply orb_true_r.
Qed.

Lemma call_DataLoader_cases (kw d : dict Callable) :
  call_DataLoader kw d = DataLoader (kw ++ d) \/
  exists k, has_key k d = true /\
            call_DataLoader kw d = Raise (TypeError_multiple_values k).
Proof.
  unfold datamodules.call_DataLoader.
  destruct (dict_merge_cases d kw) as [->|[k [Hk ->]]]; eauto.
Qed.

Lemma dict_get_absent (k : string) (d : dict Callable) :
  has_key k d = false -> dict_get k d = None.
Proof.
  induction d as [|[k' v] d IH]; cbn; [reflexivity|].
  intros H. apply orb_false_iff in H as [H1 H2]. now rewrite H1, IH.
Qed.

Lemma free_of_explicit (names : list string) (kw cfg : dict Callable) :
  keys kw = names -> free_of names cfg ->
  forall k, has_key k kw = true -> has_key k cfg = false.
Proof.
  intros <- Hfree k Hk. apply Hfree, has_key_In, Hk.
Qed.

(** The keyword arguments that each method passes itself. *)
Lemma train_dataloader_call
    (self : PCDDataModule) (d : data.PCDDataset Callable) :
  train_dataset self = Some d ->
  train_dataloader self =
    (call_DataLoader
       [("dataset", VDataset d);
        ("batch_size", VInt (train_batch_size self));
        ("shuffle", VBool (shuffle self))]
       (config_dataloaders self), self).
Proof.
  intros Hd. unfold datamodules.train_dataloader, bind, getattr, attr, lift.
  now rewrite Hd.
Qed.

Lemma val_dataloader_call
    (self : PCDDataModule) (d : data.PCDDataset Callable) :
  validation_dataset self = Some d ->
  val_dataloader self =
    (call_DataLoader
       [("dataset", VDataset d);
        ("batch_size", VInt (eval_batch_size self))]
       (config_dataloaders self), self).
Proof.
  intros Hd. unfold datamodules.val_dataloader, bind, getattr, attr, lift.
  now rewrite Hd.
Qed.

Lemma test_dataloader_call
    (self : PCDDataModule) (d : data.PCDDataset Callable) :
  test_dataset self = Some d ->
  test_dataloader self =
    (call_DataLoader
       [("dataset", VDataset d);
        ("batch_size", VInt (eval_batch_size self))]
       (config_dataloaders self), self).
Proof.
  intros Hd. unfold datamodules.test_dataloader, bind, getattr, attr, lift.
  now rewrite Hd.
Qed.

Lemma test_dataloader_bound
    (self : PCDDataModule) (d : data.PCDDataset Callable) :
  test_dataset self = Some d ->
  NoDup (keys (config_dataloaders self)) ->
  free_of ["dataset"; "batch_size"] (config_dataloaders self) ->
  test_dataloader self =
    (DataLoader
       ([("dataset", VDataset d);
         ("batch_size", VInt (eval_batch_size self))]
        ++ config_dataloaders self), self).
Proof.
  intros Hd Hnd Hfree. rewrite (test_dataloader_call self d Hd).
  rewrite call_DataLoader_ok; [reflexivity|exact Hnd|].
  apply (free_of_explicit ["dataset"; "batch_size"]);
    [reflexivity|exact Hfree].
Qed.

Lemma val_dataloader_bound
    (self : PCDDataModule) (d : data.PCDDataset Callable) :
  validation_dataset self = Some d ->
  NoDup (keys (config_dataloaders self)) ->
  free_of ["dataset"; "batch_size"] (config_dataloaders self) ->
  val_dataloader self =
    (DataLoader
       ([("dataset", VDataset d);
         ("batch_size", VInt (eval_batch_size self))]
        ++ config_dataloaders self), self).
Proof.
  intros Hd Hnd Hfree. rewrite (val_dataloader_call self d Hd).
  rewrite call_DataLoader_ok; [reflexivity|exact Hnd|].
  apply (free_of_explicit ["dataset"; "batch_size"]);
    [reflexivity|exact Hfree].
Qed.

Lemma train_dataloader_bound
    (self : PCDDataModule) (d : data.PCDDataset Callable) :
  train_dataset self = Some d ->
  NoDup (keys (config_dataloaders self)) ->
  free_of ["dataset"; "batch_size"; "shuffle"] (config_dataloaders self) ->
  train_dataloader self =
    (DataLoader
       ([("dataset", VDataset d);
         ("batch_size", VInt (train_batch_size self));
         ("shuffle", VBool (shuffle self))]
        ++ config_dataloaders self), self).
Proof.
  intros Hd Hnd Hfree. rewrite (train_dataloader_call self d Hd).
  rewrite call_DataLoader_ok; [reflexivity|exact Hnd|].
  apply (free_of_explicit ["dataset"; "batch_size"; "shuffle"]);
    [reflexivity|exact Hfree].
Qed.

(** A method whose dataset is bound either stops on a key of
    [config_dataloaders] given twice or returns what the constructor
    returns for its own arguments followed by the mapping. *)
Lemma train_dataloader_cases
    (self : PCDDataModule) (d : data.PCDDataset Callable) :
  train_dataset self = Some d ->
  train_dataloader self =
    (DataLoader
       ([("dataset", VDataset d);
         ("batch_size", VInt (train_batch_size self));
         ("shuffle", VBool (shuffle self))]
        ++ config_dataloaders self), self) \/
  exists k, has_key k (config_dataloaders self) = true /\
            train_dataloader self = (Raise (TypeError_multiple_values k), self).
Proof.
  intros Hd. rewrite (train_dataloader_call self d Hd).
  destruct (call_DataLoader_cases
              [("dataset", VDataset d);
               ("batch_size", VInt (train_batch_size self));
               ("shuffle", VBool (shuffle self))]
              (config_dataloaders self)) as [->|[k [Hk ->]]]; eauto.
Qed.

Lemma val_dataloader_cases
    (self : PCDDataModule) (d : data.PCDDataset Callable) :
  validation_dataset self = Some d ->
  val_dataloader self =
    (DataLoader
       ([("dataset", VDataset d);
         ("batch_size", VInt (eval_batch_size self))]
        ++ config_dataloaders self), self) \/
  exists k, has_key k (config_dataloaders self) = true /\
            val_dataloader self = (Raise (TypeError_multiple_values k), self).
Proof.
  intros Hd. rewrite (val_dataloader_call self d Hd).
  destruct (call_DataLoader_cases
              [("dataset", VDataset d);
               ("batch_size", VInt (eval_batch_size self))]
              (config_dataloaders self)) as [->|[k [Hk ->]]]; eauto.
Qed.

Lemma test_dataloader_cases
    (self : PCDDataModule) (d : data.PCDDataset Callable) :
  test_dataset self = Some d ->
  test_dataloader self =
    (DataLoader
       ([("dataset", VDataset d);
         ("batch_size", VInt (eval_batch_size self))]
        ++ config_dataloaders self), self) \/
  exists k, has_key k (config_dataloaders self) = true /\
            test_dataloader self = (Raise (TypeError_multiple_values k), self).
Proof.
  intros Hd. rewrite (test_dataloader_call self d Hd).
  destruct (call_DataLoader_cases
              [("dataset", VDataset d);
               ("batch_size", VInt (eval_batch_size self))]
              (config_dataloaders self)) as [->|[k [Hk ->]]]; eauto.
Qed.

(** C4, as the methods have it.  Once the datasets are set up, each
    loader method either stops on a keyword argument that
    [config_dataloaders] gives a second time, or returns what
    [DataLoader] returns for these arguments: the train dataset,
    [batch_size=train_batch_size] and [shuffle=shuffle] for the train
    loader; the dataset of the split and [batch_size=eval_batch_size],
    with no [shuffle] argument of the method, for the validation and the
    test loader; in each call followed by the same items of
    [config_dataloaders].  The call does not stop when the mapping, its
    keys distinct, binds none of the names that the method passes.  The
    [shuffle] argument that reaches the validation and the test loader
    is the one of [config_dataloaders], if it has one. *)
Theorem loaders_configuration
    (self : PCDDataModule) (dtrain dval dtest : data.PCDDataset Callable) :
  train_dataset self = Some dtrain ->
  validation_dataset self = Some dval ->
  test_dataset self = Some dtest ->
  let cfg := config_dataloaders self in
  let train_kw := [("dataset", VDataset dtrain);
                   ("batch_size", VInt (train_batch_size self));
                   ("shuffle", VBool (shuffle self))] ++ cfg in
  let val_kw := [("dataset", VDataset dval);
                 ("batch_size", VInt (eval_batch_size self))] ++ cfg in
  let test_kw := [("dataset", VDataset dtest);
                  ("batch_size", VInt (eval_batch_size self))] ++ cfg in
  (train_dataloader self = (DataLoader train_kw, self) \/
   exists k, has_key k cfg = true /\
             train_dataloader self
             = (Raise (TypeError_multiple_values k), self)) /\
  (val_dataloader self = (DataLoader val_kw, self) \/
   exists k, has_key k cfg = true /\
             val_dataloader self
             = (Raise (TypeError_multiple_values k), self)) /\
  (test_dataloader self = (DataLoader test_kw, self) \/
   exists k, has_key k cfg = true /\
             test_dataloader self
             = (Raise (TypeError_multiple_values k), self)) /\
  (NoDup (keys cfg) -> free_of ["dataset"; "batch_size"; "shuffle"] cfg ->
   train_dataloader self = (DataLoader train_kw, self)) /\
  (NoDup (keys cfg) -> free_of ["dataset"; "batch_size"] cfg ->
   val_dataloader self = (DataLoader val_kw, self) /\
   test_dataloader self = (DataLoader test_kw, self)) /\
  dict_get "batch_size" train_kw = Some (VInt (train_batch_size self)) /\
  dict_get "shuffle" train_kw = Some (VBool (shuffle self)) /\
  dict_get "batch_size" val_kw = Some (VInt (eval_batch_size self)) /\
  dict_get "batch_size" test_kw = Some (VInt (eval_batch_size self)) /\
  dict_get "shuffle" val_kw = dict_get "shuffle" cfg /\
  dict_get "shuffle" test_kw = dict_get "shuffle" cfg.
Proof using Type.
  intros Htr Hva Hte cfg train_kw val_kw test_kw.
  split; [exact (train_dataloader_cases self dtrain Htr)|].
  split; [exact (val_dataloader_cases self dval Hva)|].
  split; [exact (test_dataloader_cases self dtest Hte)|].
  split; [intros Hnd Hfree; now apply train_dataloader_bound|].
  split; [intros Hnd Hfree; split;
          [now apply val_dataloader_bound|now apply test_dataloader_bound]|].
  repeat split.
Qed.

(** C10. When [config_dataloaders] binds ['batch_size'], no loader is
    built: each of the three methods, its dataset being set up, raises
    the [TypeError] of a keyword argument given twice, and the instance
    is left as it was.  The same holds for the train loader when the
    mapping binds ['shuffle'].  In no case is the configured batch size
    or shuffle flag overridden. *)
Theorem duplicate_keyword_argument
    (self : PCDDataModule) (dtrain dval dtest : data.PCDDataset Callable) :
  train_dataset self = Some dtrain ->
  validation_dataset self = Some dval ->
  test_dataset self = Some dtest ->
  (has_key "batch_size" (config_dataloaders self) = true ->
     (exists k, train_dataloader self
                = (Raise (TypeError_multiple_values k), self)) /\
     (exists k, val_dataloader self
                = (Raise (TypeError_multiple_values k), self)) /\
     (exists k, test_dataloader self
                = (Raise (TypeError_multiple_values k), self))) /\
  (has_key "shuffle" (config_dataloaders self) = true ->
     exists k, train_dataloader self
               = (Raise (TypeError_multiple_values k), self)).
Proof.
  intros Htr Hva Hte.
  assert (Hclash : forall key,
    has_key key (config_dataloaders self) = true ->
    (In key ["dataset"; "batch_size"; "shuffle"] ->
     exists k, train_dataloader self
               = (Raise (TypeError_multiple_values k), self)) /\
    (In key ["dataset"; "batch_size"] ->
     (exists k, val_dataloader self
                = (Raise (TypeError_multiple_values k), self)) /\
     (exists k, test_dataloader self
                = (Raise (TypeError_multiple_values k), self)))).
  { intros key Hkey. split; [intros Hin|intros Hin; split].
    - rewrite (train_dataloader_call self dtrain Htr).
      edestruct call_DataLoader_clash as [k [-> _]];
        [|exact Hkey|eexists; reflexivity].
      apply has_key_In. exact Hin.
    - rewrite (val_dataloader_call self dval Hva).
      edestruct call_DataLoader_clash as [k [-> _]];
        [|exact Hkey|eexists; reflexivity].
      apply has_key_In. exact Hin.
    - rewrite (test_dataloader_call self dtest Hte).
      edestruct call_DataLoader_clash as [k [-> _]];
        [|exact Hkey|eexists; reflexivity].
      apply has_key_In. exact Hin. }
  split; intros H; destruct (Hclash _ H) as [H1 H2].
  - split; [apply H1; cbn; tauto|apply H2; cbn; tauto].
  - apply H1; cbn; tauto.
Qed.

(** *** Which stage binds which dataset *)

Lemma fit_block_test_attrs (self : PCDDataModule) :
  test_dataset (snd (fit_block self)) = test_dataset self.
Proof.
  unfold datamodules.fit_block.
  destruct (get_names _); [|reflexivity]. destruct (get_names _); reflexivity.
Qed.

Lemma test_block_fit_attrs (self : PCDDataModule) :
  train_dataset (snd (test_block self)) = train_dataset self /\
  validation_dataset (snd (test_block self)) = validation_dataset self.
Proof.
  unfold datamodules.test_block. destruct (get_names _); split; reflexivity.
Qed.

Lemma setup_without_test (stage : option string) (self : PCDDataModule) :
  runs_test stage = false ->
  test_dataset (snd (setup stage self)) = test_dataset self.
Proof.
  intros H. rewrite setup_blocks, H.
  destruct (runs_fit stage); [|reflexivity].
  pose proof (fit_block_test_attrs self) as Hf.
  destruct (fit_block self) as [[[]|e] s1]; exact Hf.
Qed.

Lemma setup_without_fit (stage : option string) (self : PCDDataModule) :
  runs_fit stage = false ->
  train_dataset (snd (setup stage self)) = train_dataset self /\
  validation_dataset (snd (setup stage self)) = validation_dataset self.
Proof.
  intros H. rewrite setup_blocks, H.
  destruct (runs_test stage); [apply test_block_fit_attrs|split; reflexivity].
Qed.

Lemma run_setups_without_test
    (stages : list (option string)) (self : PCDDataModule) :
  Forall (fun st => runs_test st = false) stages ->
  test_dataset (run_setups get_names stages self) = test_dataset self.
Proof.
  intros H. revert self.
  induction H as [|st stages Hst _ IH]; intros self; cbn [run_setups].
  - reflexivity.
  - rewrite IH. apply setup_without_test, Hst.
Qed.

Lemma run_setups_without_fit
    (stages : list (option string)) (self : PCDDataModule) :
  Forall (fun st => runs_fit st = false) stages ->
  train_dataset (run_setups get_names stages self) = train_dataset self /\
  validation_dataset (run_setups get_names stages self)
  = validation_dataset self.
Proof.
  intros H. revert self.
  induction H as [|st stages Hst _ IH]; intros self; cbn [run_setups].
  - split; reflexivity.
  - destruct (IH (snd (setup st self))) as [-> ->].
    apply setup_without_fit, Hst.
Qed.

(** A loader asked for before its dataset exists. *)
Lemma train_dataloader_unbound (self : PCDDataModule) :
  train_dataset self = None ->
  train_dataloader self = (Raise (AttributeError "train_dataset"), self).
Proof.
  intros H. unfold datamodules.train_dataloader, bind, getattr. now rewrite H.
Qed.

Lemma val_dataloader_unbound (self : PCDDataModule) :
  validation_dataset self = None ->
  val_dataloader self = (Raise (AttributeError "validation_dataset"), self).
Proof.
  intros H. unfold datamodules.val_dataloader, bind, getattr. now rewrite H.
Qed.

Lemma test_dataloader_unbound (self : PCDDataModule) :
  test_dataset self = None ->
  test_dataloader self = (Raise (AttributeError "test_dataset"), self).
Proof.
  intros H. unfold datamodules.test_dataloader, bind, getattr. now rewrite H.
Qed.

(** C5. A loader asked for before [setup] has run for its stage is
    refused: reading the dataset attribute, which does not exist yet,
    raises [AttributeError] (the error the design document calls
    [NotReadyError]) and leaves the instance as it was.  This holds
    after any calls of [setup] for other stages.  In particular, after
    [setup(stage='fit')] alone the test loader is refused, and once
    [setup(stage='test')] has run the same request finds the test
    dataset and hands it to [DataLoader]: it returns the loader that
    [DataLoader] returns for the test dataset, the evaluation batch
    size and the options. *)
Theorem loader_before_setup_fails (self0 : PCDDataModule) :
  fresh self0 ->
  (forall stages,
     Forall (fun st => st <> None /\ st <> Some "fit") stages ->
     let self := run_setups get_names stages self0 in
     train_dataloader self = (Raise (AttributeError "train_dataset"), self) /\
     val_dataloader self
     = (Raise (AttributeError "validation_dataset"), self)) /\
  (forall stages,
     Forall (fun st => st <> None /\ st <> Some "test") stages ->
     let self := run_setups get_names stages self0 in
     test_dataloader self = (Raise (AttributeError "test_dataset"), self)) /\
  (let self1 := snd (setup (Some "fit") self0) in
   test_dataloader self1 = (Raise (AttributeError "test_dataset"), self1) /\
   forall test,
     get_names (manifest self0 "test.json") = Ok test ->
     exists self2 dtest,
       setup (Some "test") self1 = (Ok tt, self2) /\
       test_dataset self2 = Some dtest /\
       data.pcd_names dtest = test /\
       let cfg := config_dataloaders self0 in
       let kw := [("dataset", VDataset dtest);
                  ("batch_size", VInt (eval_batch_size self0))] ++ cfg in
       (test_dataloader self2 = (DataLoader kw, self2) \/
        exists k, has_key k cfg = true /\
                  test_dataloader self2
                  = (Raise (TypeError_multiple_values k), self2)) /\
       (NoDup (keys cfg) -> free_of ["dataset"; "batch_size"] cfg ->
        forall loader, DataLoader kw = Ok loader ->
                       test_dataloader self2 = (Ok loader, self2))).
Proof.
  intros (_ & _ & _ & Htr & Hva & Hte).
  assert (Hnofit : forall stages,
    Forall (fun st => st <> None /\ st <> Some "fit") stages ->
    Forall (fun st => runs_fit st = false) stages).
  { intros stages H. eapply Forall_impl; [|exact H].
    intros st [H1 H2]. cbn beta. destruct (runs_fit st) eqn:E; [|reflexivity].
    apply runs_fit_iff in E. destruct E; contradiction. }
  assert (Hnotest : forall stages,
    Forall (fun st => st <> None /\ st <> Some "test") stages ->
    Forall (fun st => runs_test st = false) stages).
  { intros stages H. eapply Forall_impl; [|exact H].
    intros st [H1 H2]. cbn beta. destruct (runs_test st) eqn:E; [|reflexivity].
    apply runs_test_iff in E. destruct E; contradiction. }
  split; [|split; [|split]].
  - intros stages H self.
    destruct (run_setups_without_fit stages self0 (Hnofit _ H)) as [H1 H2].
    split.
    + apply train_dataloader_unbound. subst self. congruence.
    + apply val_dataloader_unbound. subst self. congruence.
  - intros stages H self. apply test_dataloader_unbound. subst self.
    rewrite (run_setups_without_test stages self0 (Hnotest _ H)). exact Hte.
  - apply test_dataloader_unbound.
    rewrite setup_without_test by reflexivity. exact Hte.
  - intros test Hget.
    pose proof (setup_config (Some "fit") self0) as Hcfg.
    set (self1 := snd (setup (Some "fit") self0)) in Hcfg |- *.
    assert (Hget1 : get_names (manifest self1 "test.json") = Ok test)
      by (rewrite (manifest_same_config self0 self1 _ Hcfg); exact Hget).
    assert (Hcd : config_dataloaders (after_test test self1)
                  = config_dataloaders self0) by apply Hcfg.
    assert (Heb : eval_batch_size (after_test test self1)
                  = eval_batch_size self0) by apply Hcfg.
    exists (after_test test self1),
      (new_PCDDataset test (eval_transform_x self1) self1).
    split; [|split; [|split; [|split]]].
    + rewrite setup_blocks. change (runs_fit (Some "test")) with false.
      change (runs_test (Some "test")) with true. cbv iota.
      apply test_block_ok, Hget1.
    + reflexivity.
    + reflexivity.
    + rewrite <- Hcd, <- Heb. apply test_dataloader_cases. reflexivity.
    + intros Hnd Hfree loader Hl. rewrite <- Hl, <- Hcd, <- Heb.
      apply test_dataloader_bound;
        [reflexivity|rewrite Hcd; exact Hnd|rewrite Hcd; exact Hfree].
Qed.

(** *** A call of [setup] whose manifests can be read *)

Lemma setup_result
    (stage : option string) (self : PCDDataModule)
    (train val test : list string) :
  (runs_fit stage = true ->
     get_names (manifest self "train.json") = Ok train /\
     get_names (manifest self "validation.json") = Ok val) ->
  (runs_test stage = true ->
     get_names (manifest self "test.json") = Ok test) ->
  setup stage self =
  (Ok tt,
   (if runs_test stage then after_test test else (fun s => s))
     ((if runs_fit stage then after_fit train val else (fun s => s)) self)).
Proof.
  intros Hfit Htest. rewrite setup_blocks.
  destruct (runs_fit stage); destruct (runs_test stage).
  - destruct (Hfit eq_refl) as [H1 H2].
    rewrite (fit_block_ok _ _ _ H1 H2).
    apply (test_block_ok (after_fit train val self)), Htest. reflexivity.
  - destruct (Hfit eq_refl) as [H1 H2].
    now rewrite (fit_block_ok _ _ _ H1 H2).
  - apply test_block_ok, Htest. reflexivity.
  - reflexivity.
Qed.

(** A call of [setup] with [stage=None] that returns has bound the
    three datasets. *)
Lemma setup_None_inv (self0 self : PCDDataModule) :
  setup None self0 = (Ok tt, self) ->
  exists train val test,
    self = after_test test (after_fit train val self0).
Proof.
  rewrite setup_blocks. change (runs_fit None) with true.
  change (runs_test None) with true. cbv iota.
  unfold datamodules.fit_block.
  destruct (get_names (manifest self0 "train.json")) as [train|e];
    [|discriminate].
  destruct (get_names (manifest self0 "validation.json")) as [val|e];
    [|discriminate].
  unfold datamodules.test_block.
  destruct (get_names (manifest (after_fit train val self0) "test.json"))
    as [test|e]; [|discriminate].
  intros H. inversion H. eauto.
Qed.

(** C9. [setup] takes [train_size] as the bound of a slice and checks
    nothing: with a [train_size] above the length of the train manifest
    the whole manifest is kept and the call returns normally; with a
    negative [train_size] the call returns normally too, and the names
    kept are the manifest without its last [-train_size] names, fewer
    than the manifest has, and none at all when [-train_size] reaches
    its length. *)
Theorem train_size_not_validated
    (self : PCDDataModule) (stage : option string)
    (train val test : list string) (n : Z) :
  train_size self = Some n ->
  stage = None \/ stage = Some "fit" ->
  get_names (manifest self "train.json") = Ok train ->
  get_names (manifest self "validation.json") = Ok val ->
  (stage = None -> get_names (manifest self "test.json") = Ok test) ->
  exists self' names,
    setup stage self = (Ok tt, self') /\
    _train_names self' = Some names /\
    names = slice_to train (Some n) /\
    ((len train < n)%Z -> names = train) /\
    ((n < 0)%Z ->
       names = firstn (List.length train - Z.to_nat (- n)) train /\
       (train <> [] -> (List.length names < List.length train)%nat) /\
       ((n <= - len train)%Z -> names = [])).
Proof.
  intros Hsize Hstage H1 H2 H3.
  assert (Hf : runs_fit stage = true) by (apply runs_fit_iff, Hstage).
  rewrite (setup_result stage self train val test).
  - rewrite Hf. exists (
      (if runs_test stage then after_test test else (fun s => s))
        (after_fit train val self)), (slice_to train (Some n)).
    split; [reflexivity|]. split.
    { rewrite <- Hsize. destruct (runs_test stage); reflexivity. }
    split; [reflexivity|]. split.
    + intros Hn. apply slice_to_beyond. lia.
    + intros Hn. rewrite (slice_to_negative _ _ Hn). split; [reflexivity|].
      split.
      * intros Hne. rewrite length_firstn.
        destruct train; [congruence|]. cbn [List.length]. lia.
      * intros Hle. unfold len in Hle.
        replace (List.length train - Z.to_nat (- n))%nat with 0%nat by lia.
        reflexivity.
  - intros _. split; assumption.
  - intros Ht. apply H3. apply runs_test_iff in Ht.
    destruct Ht as [Ht|Ht]; [exact Ht|].
    destruct Hstage as [Hs|Hs]; congruence.
Qed.

(** C8, as the class has it.  After [setup] with [stage=None] the
    instance holds three datasets, in the attributes [train_dataset],
    [validation_dataset] and [test_dataset], and each of the train, the
    validation and the test split has a loader method: it passes the
    dataset of its split to [DataLoader] and returns what [DataLoader]
    returns, unless the call stops on a keyword argument that
    [config_dataloaders] gives a second time. *)
Theorem three_datasets_three_loaders (self0 self : PCDDataModule) :
  setup None self0 = (Ok tt, self) ->
  exists dtrain dval dtest,
    datasets self = [("train_dataset", dtrain);
                     ("validation_dataset", dval);
                     ("test_dataset", dtest)] /\
    let cfg := config_dataloaders self in
    let train_kw := [("dataset", VDataset dtrain);
                     ("batch_size", VInt (train_batch_size self));
                     ("shuffle", VBool (shuffle self))] ++ cfg in
    let val_kw := [("dataset", VDataset dval);
                   ("batch_size", VInt (eval_batch_size self))] ++ cfg in
    let test_kw := [("dataset", VDataset dtest);
                    ("batch_size", VInt (eval_batch_size self))] ++ cfg in
    (loader_for Train self = (DataLoader train_kw, self) \/
     exists k, has_key k cfg = true /\
               loader_for Train self
               = (Raise (TypeError_multiple_values k), self)) /\
    (loader_for Validation self = (DataLoader val_kw, self) \/
     exists k, has_key k cfg = true /\
               loader_for Validation self
               = (Raise (TypeError_multiple_values k), self)) /\
    (loader_for Test self = (DataLoader test_kw, self) \/
     exists k, has_key k cfg = true /\
               loader_for Test self
               = (Raise (TypeError_multiple_values k), self)) /\
    dict_get "dataset" train_kw = Some (VDataset dtrain) /\
    dict_get "dataset" val_kw = Some (VDataset dval) /\
    dict_get "dataset" test_kw = Some (VDataset dtest).
Proof.
  intros Hsetup.
  destruct (setup_None_inv _ _ Hsetup) as (train & val & test & ->).
  set (self := after_test test (after_fit train val self0)).
  exists (new_PCDDataset (slice_to train (train_size self0))
            (train_transform_x self0) self0),
    (new_PCDDataset val (eval_transform_x self0) self0),
    (new_PCDDataset test (eval_transform_x self0) self0).
  split; [reflexivity|]. cbv zeta. cbn [datamodules.loader_for].
  split; [apply train_dataloader_cases; reflexivity|].
  split; [apply val_dataloader_cases; reflexivity|].
  split; [apply test_dataloader_cases; reflexivity|].
  repeat split.
Qed.

End Facts.

(** *** The properties on the directory [pcd_data] *)

Import Scenario.

Lemma free_of_nil (names : list string) : @free_of unit names [].
Proof. intros k _. reflexivity. Qed.

Lemma setup_loads_manifests_witness :
  exists self',
    setup example_get_names None (example_module (Some 2%Z) None)
    = (Ok tt, self') /\
    _train_names self' = Some ["IRMOF-1"; "Cu-BTC"] /\
    _val_names self' = Some ["MOF-5"] /\
    _test_names self' = Some ["ZIF-8"; "HKUST-1"] /\
    option_map data.pcd_names (train_dataset self')
    = Some ["IRMOF-1"; "Cu-BTC"].
Proof.
  destruct (setup_loads_manifests unit example_get_names
              (example_module (Some 2%Z) None) None
              ["IRMOF-1"; "Cu-BTC"; "UiO-66"] ["MOF-5"] ["ZIF-8"; "HKUST-1"])
    as [_ (self' & Hrun & Hfit & Htest)].
  - reflexivity.
  - intros _. split; reflexivity.
  - intros _. reflexivity.
  - exists self'.
    destruct (Hfit (or_introl eq_refl)) as (_ & _ & Htn & Hvn & Htd & _).
    destruct (Htest (or_introl eq_refl)) as (Hte & _).
    split; [exact Hrun|]. split; [exact Htn|]. split; [exact Hvn|].
    split; [exact Hte|]. rewrite Htd. reflexivity.
Defined.

Lemma loaders_configuration_witness :
  let self := snd (setup example_get_names None
                     (example_module None (Some [("num_workers", VInt 4%Z)]))) in
  train_dataloader example_DataLoader self
  = (Ok [("dataset",
          VDataset (data.mkPCDDataset ["IRMOF-1"; "Cu-BTC"; "UiO-66"]
                      "pcd_data/pcds.npz" "pcd_data/labels.csv" "id" ["y"]
                      None None));
         ("batch_size", VInt 32%Z); ("shuffle", VBool true);
         ("num_workers", VInt 4%Z)], self).
Proof.
  intros self.
  destruct (loaders_configuration unit (dict unit) example_DataLoader self
              (data.mkPCDDataset ["IRMOF-1"; "Cu-BTC"; "UiO-66"]
                 "pcd_data/pcds.npz" "pcd_data/labels.csv" "id" ["y"]
                 None None)
              (data.mkPCDDataset ["MOF-5"]
                 "pcd_data/pcds.npz" "pcd_data/labels.csv" "id" ["y"]
                 None None)
              (data.mkPCDDataset ["ZIF-8"; "HKUST-1"]
                 "pcd_data/pcds.npz" "pcd_data/labels.csv" "id" ["y"]
                 None None)) as (_ & _ & _ & Htrain & _).
  - vm_compute. reflexivity.
  - vm_compute. reflexivity.
  - vm_compute. reflexivity.
  - rewrite Htrain.
    + vm_compute. reflexivity.
    + repeat constructor. simpl. intros [].
    + intros k Hk. simpl in Hk.
      destruct Hk as [<-|[<-|[<-|[]]]]; reflexivity.
Defined.

(** C4, as the design document has it, fails on the class: with
    [config_dataloaders={'shuffle': True}] the validation loader is
    built with [shuffle=True], while the train loader is not built at
    all. *)
Lemma validation_loader_shuffles_counterexample :
  let self := snd (setup example_get_names None
                     (example_module None (Some [("shuffle", VBool true)]))) in
  setup example_get_names None
    (example_module None (Some [("shuffle", VBool true)])) = (Ok tt, self) /\
  val_dataloader example_DataLoader self
  = (example_DataLoader
       [("dataset",
         VDataset (data.mkPCDDataset ["MOF-5"]
                     "pcd_data/pcds.npz" "pcd_data/labels.csv" "id" ["y"]
                     None None));
        ("batch_size", VInt 32%Z); ("shuffle", VBool true)], self) /\
  val_dataloader example_DataLoader self
  = (Ok [("dataset",
          VDataset (data.mkPCDDataset ["MOF-5"]
                      "pcd_data/pcds.npz" "pcd_data/labels.csv" "id" ["y"]
                      None None));
         ("batch_size", VInt 32%Z); ("shuffle", VBool true)], self) /\
  train_dataloader example_DataLoader self
  = (Raise (TypeError_multiple_values "shuffle"), self).
Proof. vm_compute. repeat split. Qed.

Lemma loader_before_setup_fails_witness :
  let self1 := snd (setup example_get_names (Some "fit")
                      (example_module None None)) in
  test_dataloader example_DataLoader self1
  = (Raise (AttributeError "test_dataset"), self1) /\
  exists self2 loader,
    setup example_get_names (Some "test") self1 = (Ok tt, self2) /\
    test_dataloader example_DataLoader self2 = (Ok loader, self2).
Proof.
  intros self1.
  destruct (loader_before_setup_fails unit example_get_names (dict unit)
              example_DataLoader (example_module None None))
    as (_ & _ & Hfail & Hthen).
  - repeat split.
  - split.
    + exact Hfail.
    + destruct (Hthen ["ZIF-8"; "HKUST-1"])
        as (self2 & dtest & H1 & H2 & H3 & _ & Hok).
      * reflexivity.
      * exists self2. eexists. split; [exact H1|].
        apply Hok.
        -- constructor.
        -- apply free_of_nil.
        -- destruct dtest. vm_compute. reflexivity.
Defined.

Lemma train_size_not_validated_witness :
  exists self',
    setup example_get_names (Some "fit") (example_module (Some (-1)%Z) None)
    = (Ok tt, self') /\
    _train_names self' = Some ["IRMOF-1"; "Cu-BTC"].
Proof.
  destruct (train_size_not_validated unit example_get_names
              (example_module (Some (-1)%Z) None) (Some "fit")
              ["IRMOF-1"; "Cu-BTC"; "UiO-66"] ["MOF-5"] [] (-1)%Z)
    as (self' & names & Hrun & Hnames & _ & _ & Hneg).
  - reflexivity.
  - right. reflexivity.
  - reflexivity.
  - reflexivity.
  - intros H. discriminate H.
  - exists self'. split; [exact Hrun|].
    destruct Hneg as (-> & _); [lia|]. exact Hnames.
Defined.

Lemma duplicate_keyword_argument_witness :
  let self := snd (setup example_get_names None
                     (example_module None (Some [("batch_size", VInt 8%Z)]))) in
  exists k,
    val_dataloader example_DataLoader self
    = (Raise (TypeError_multiple_values k), self).
Proof.
  intros self.
  destruct (duplicate_keyword_argument unit (dict unit) example_DataLoader self
              (data.mkPCDDataset ["IRMOF-1"; "Cu-BTC"; "UiO-66"]
                 "pcd_data/pcds.npz" "pcd_data/labels.csv" "id" ["y"]
                 None None)
              (data.mkPCDDataset ["MOF-5"]
                 "pcd_data/pcds.npz" "pcd_data/labels.csv" "id" ["y"]
                 None None)
              (data.mkPCDDataset ["ZIF-8"; "HKUST-1"]
                 "pcd_data/pcds.npz" "pcd_data/labels.csv" "id" ["y"]
                 None None)) as (Hbatch & _).
  - vm_compute. reflexivity.
  - vm_compute. reflexivity.
  - vm_compute. reflexivity.
  - destruct Hbatch as (_ & Hval & _); [vm_compute; reflexivity|]. exact Hval.
Defined.

(** C8, as the design document has it, fails on the class: after a
    full [setup] the instance holds three datasets, not four, and the
    predict split has no loader method of the class; the request ends in
    the hook of the base class, which raises. *)
Lemma predict_split_counterexample :
  let self := snd (setup example_get_names None (example_module None None)) in
  setup example_get_names None (example_module None None) = (Ok tt, self) /\
  List.length (datasets self) = 3%nat /\
  loader_for example_DataLoader Predict self
  = (Raise (MisconfigurationException "predict_dataloader"), self) /\
  ~ (List.length (datasets self) = 4%nat /\
     forall sp, exists l, loader_for example_DataLoader sp self = (Ok l, self)).
Proof.
  intros self. split; [vm_compute; reflexivity|].
  split; [vm_compute; reflexivity|].
  split; [vm_compute; reflexivity|].
  intros [Hlen _]. vm_compute in Hlen. discriminate Hlen.
Qed.

Lemma three_datasets_three_loaders_witness :
  let self := snd (setup example_get_names None (example_module None None)) in
  map fst (datasets self)
  = ["train_dataset"; "validation_dataset"; "test_dataset"].
Proof.
  intros self.
  destruct (three_datasets_three_loaders unit example_get_names (dict unit)
              example_DataLoader (example_module None None) self)
    as (dtrain & dval & dtest & Hds & _).
  - vm_compute. reflexivity.
  - rewrite Hds. reflexivity.
Defined.

End datamodules_facts.

(* ===================================================================== *)
(** ** The archive builder *)
(* ===================================================================== *)

Module utils_facts.
Import PosixPath PathFacts utils.

Section Facts.

Variable coord : Type.
Variable read_structure : string -> result (list (point coord)).
Variable listdir : string -> list string.

Local Abbreviation pcd_from_files := (utils.pcd_from_files read_structure).
Local Abbreviation pcd_from_dir := (utils.pcd_from_dir read_structure listdir).
Local Abbreviation read_all := (utils.read_all read_structure).

(** [Path(f).stem] *)
Local Abbreviation stem_of := (fun f : string => stem (parse f)).

Lemma read_all_ok (fnames : list string) :
  (forall f, In f fnames -> is_ok (read_structure f) = true) ->
  exists pairs,
    read_all fnames = Ok pairs /\
    files pairs = map stem_of fnames /\
    Forall2 (fun f entry =>
               exists pcd, read_structure f = Ok pcd /\
                           entry = (stem (parse f), to_array pcd))
      fnames pairs.
Proof.
  induction fnames as [|f rest IH]; intros Hall.
  - exists []. repeat split. constructor.
  - destruct IH as (pairs & Hread & Hfiles & Hall2).
    { intros g Hg. apply Hall. now right. }
    pose proof (Hall f (or_introl eq_refl)) as Hf.
    destruct (read_structure f) as [pcd|e] eqn:E; [|discriminate Hf].
    exists ((stem (parse f), to_array pcd) :: pairs).
    cbn [utils.read_all]. unfold pcd_from_file. rewrite E, Hread.
    split; [reflexivity|]. split.
    + unfold files in Hfiles |- *. cbn [map fst]. now rewrite Hfiles.
    + constructor; [|exact Hall2]. exists pcd. split; [exact E|reflexivity].
Qed.

Lemma write_read (st : store coord) (outname : string) (a : archive coord) :
  write st outname a outname = Some a.
Proof. unfold write. now rewrite String.eqb_refl. Qed.

(** The random permutation is a permutation. *)
Lemma pick_Permutation {A} (i : nat) (l : list A) (a : A) (r : list A) :
  pick i l = Some (a, r) -> Permutation l (a :: r).
Proof.
  revert i a r. induction l as [|x l IH]; intros i a r H;
    [destruct i; discriminate|].
  destruct i as [|i].
  - cbn in H. inversion H. subst. apply Permutation_refl.
  - change (pick (S i) (x :: l))
      with (match pick i l with
            | Some (b, r) => Some (b, x :: r)
            | None => None
            end) in H.
    destruct (pick i l) as [[b r']|] eqn:E; [|discriminate].
    inversion H. subst.
    apply perm_trans with (x :: a :: r').
    + constructor. eapply IH. exact E.
    + apply perm_swap.
Qed.

Lemma permute_from_Permutation {A} (n : nat) (draws : list nat) (l : list A) :
  Permutation (permute_from n draws l) l.
Proof.
  revert draws l. induction n as [|n IH]; intros draws l; cbn.
  - apply Permutation_refl.
  - destruct (pick _ l) as [[a r]|] eqn:E; [|apply Permutation_refl].
    apply Permutation_sym.
    eapply perm_trans; [eapply pick_Permutation; exact E|].
    constructor. apply Permutation_sym, IH.
Qed.

Lemma permute_Permutation {A} (draws : list nat) (l : list A) :
  Permutation (permute draws l) l.
Proof. apply permute_from_Permutation. Qed.

(** The stored array of a structure. *)
Lemma last_column_to_array (pcd : list (point coord)) :
  last_column (to_array pcd) = map atomic_number pcd.
Proof.
  induction pcd as [|p pcd IH]; [reflexivity|].
  unfold to_array, last_column in *. cbn. now rewrite IH.
Qed.

Lemma shape_to_array (pcd : list (point coord)) :
  pcd <> [] -> shape (to_array pcd) = (List.length pcd, 4%nat).
Proof.
  destruct pcd as [|p pcd]; [congruence|]. intros _.
  unfold shape, to_array. now rewrite length_map.
Qed.

(** C2. With [shuffle=False] the names stored in the archive are the
    stems of the input files, in input order; for [pcd_from_dir] the
    input order is the listing order of the directory.  The files are
    ones that can be read, and the entries of the listing are plain
    file names. *)
Theorem unshuffled_names_in_input_order
    (fnames : list string) (dirname outname : string)
    (draws : list nat) (st : store coord) :
  (forall f, In f fnames -> is_ok (read_structure f) = true) ->
  Forall component (listdir dirname) ->
  (forall f, In f (listdir dirname) ->
     is_ok (read_structure (os_path_join dirname f)) = true) ->
  (exists st' a,
     pcd_from_files fnames outname false draws st = Ok st' /\
     st' outname = Some a /\
     files a = map stem_of fnames) /\
  (exists st' a,
     pcd_from_dir dirname outname false draws st = Ok st' /\
     st' outname = Some a /\
     files a = map stem_of (listdir dirname)).
Proof.
  intros Hfiles Hcomp Hdir. split.
  - destruct (read_all_ok fnames Hfiles) as (pairs & Hread & Hnames & _).
    exists (write st outname pairs), pairs.
    unfold utils.pcd_from_files. rewrite Hread.
    split; [reflexivity|]. split; [apply write_read|exact Hnames].
  - destruct (read_all_ok (map (os_path_join dirname) (listdir dirname)))
      as (pairs & Hread & Hnames & _).
    { intros f Hf. apply in_map_iff in Hf as (g & <- & Hg). now apply Hdir. }
    exists (write st outname pairs), pairs.
    unfold utils.pcd_from_dir, utils.pcd_from_files. rewrite Hread.
    split; [reflexivity|]. split; [apply write_read|].
    rewrite Hnames, map_map. apply map_ext_in.
    intros f Hf. apply stem_join_entry.
    rewrite Forall_forall in Hcomp. now apply Hcomp.
Qed.

(** C3. With [shuffle=True] the names stored in the archive are a
    permutation of the stems of the input files: as many names, the
    same names, each as often as among the inputs, so that no name is
    lost and none is repeated that the inputs do not repeat. *)
Theorem shuffled_names_are_a_permutation
    (fnames : list string) (outname : string)
    (draws : list nat) (st : store coord) :
  (forall f, In f fnames -> is_ok (read_structure f) = true) ->
  exists st' a,
    pcd_from_files fnames outname true draws st = Ok st' /\
    st' outname = Some a /\
    Permutation (files a) (map stem_of fnames) /\
    List.length (files a) = List.length fnames /\
    (forall n, In n (files a) <-> In n (map stem_of fnames)) /\
    (forall n, count_occ string_dec (files a) n
               = count_occ string_dec (map stem_of fnames) n) /\
    (NoDup (map stem_of fnames) -> NoDup (files a)).
Proof.
  intros Hfiles.
  destruct (read_all_ok fnames Hfiles) as (pairs & Hread & Hnames & _).
  exists (write st outname (permute draws pairs)), (permute draws pairs).
  unfold utils.pcd_from_files. rewrite Hread.
  assert (Hperm : Permutation (files (permute draws pairs))
                    (map stem_of fnames)).
  { rewrite <- Hnames. unfold files.
    apply Permutation_map, permute_Permutation. }
  split; [reflexivity|]. split; [apply write_read|].
  split; [exact Hperm|]. split; [|split; [|split]].
  - rewrite (Permutation_length Hperm). apply length_map.
  - intros n. split; apply Permutation_in;
      [exact Hperm|apply Permutation_sym, Hperm].
  - intros n. apply Permutation_count_occ, Hperm.
  - intros Hnd. eapply Permutation_NoDup; [|exact Hnd].
    apply Permutation_sym, Hperm.
Qed.

(** C6. For the two files [IRMOF-1.xyz], of 424 atoms with atomic
    number 30 among them, and [Cu-BTC.cif], of 624 atoms with no atomic
    number 30, the archive built with [shuffle=False] has exactly the
    two entries [IRMOF-1] and [Cu-BTC], of shapes [(424, 4)] and
    [(624, 4)]; 30 occurs in the last column of the first array and not
    in the last column of the second. *)
Theorem two_sample_structures
    (f1 f2 outname : string) (p1 p2 : list (point coord))
    (draws : list nat) (st : store coord) :
  name (parse f1) = "IRMOF-1.xyz" ->
  name (parse f2) = "Cu-BTC.cif" ->
  read_structure f1 = Ok p1 ->
  read_structure f2 = Ok p2 ->
  List.length p1 = 424%nat ->
  List.length p2 = 624%nat ->
  In 30%Z (map atomic_number p1) ->
  ~ In 30%Z (map atomic_number p2) ->
  exists st' a a1 a2,
    pcd_from_files [f1; f2] outname false draws st = Ok st' /\
    st' outname = Some a /\
    files a = ["IRMOF-1"; "Cu-BTC"] /\
    lookup "IRMOF-1" a = Some a1 /\
    lookup "Cu-BTC" a = Some a2 /\
    shape a1 = (424%nat, 4%nat) /\
    shape a2 = (624%nat, 4%nat) /\
    In 30%Z (last_column a1) /\
    ~ In 30%Z (last_column a2).
Proof.
  intros Hn1 Hn2 Hr1 Hr2 Hl1 Hl2 Hin Hnot.
  assert (Hs1 : stem (parse f1) = "IRMOF-1")
    by (unfold stem; rewrite Hn1; reflexivity).
  assert (Hs2 : stem (parse f2) = "Cu-BTC")
    by (unfold stem; rewrite Hn2; reflexivity).
  exists (write st outname
            [("IRMOF-1", to_array p1); ("Cu-BTC", to_array p2)]),
    [("IRMOF-1", to_array p1); ("Cu-BTC", to_array p2)],
    (to_array p1), (to_array p2).
  split.
  { unfold utils.pcd_from_files, utils.read_all, pcd_from_file.
    now rewrite Hr1, Hr2, Hs1, Hs2. }
  split; [apply write_read|]. split; [reflexivity|].
  split; [reflexivity|]. split; [reflexivity|].
  split; [rewrite shape_to_array, Hl1;
          [reflexivity|intros ->; discriminate Hl1]|].
  split; [rewrite shape_to_array, Hl2;
          [reflexivity|intros ->; discriminate Hl2]|].
  rewrite !last_column_to_array. split; assumption.
Qed.

End Facts.

Import Scenario.

Lemma unshuffled_names_in_input_order_witness :
  (exists st' a,
     utils.pcd_from_files example_read_structure
       ["tests/samples/IRMOF-1.xyz"; "tests/samples/Cu-BTC.cif"]
       "/tmp/pcds.npz" false [] empty_store = Ok st' /\
     st' "/tmp/pcds.npz" = Some a /\
     files a = ["IRMOF-1"; "Cu-BTC"]) /\
  (exists st' a,
     utils.pcd_from_dir example_read_structure example_listdir
       "tests/samples" "/tmp/pcds.npz" false [] empty_store = Ok st' /\
     st' "/tmp/pcds.npz" = Some a /\
     files a = ["IRMOF-1"; "Cu-BTC"]).
Proof.
  apply (unshuffled_names_in_input_order Z example_read_structure
           example_listdir
           ["tests/samples/IRMOF-1.xyz"; "tests/samples/Cu-BTC.cif"]
           "tests/samples" "/tmp/pcds.npz" [] empty_store).
  - intros f [<-|[<-|[]]]; reflexivity.
  - repeat constructor.
  - intros f [<-|[<-|[]]]; reflexivity.
Defined.

Lemma shuffled_names_are_a_permutation_witness :
  exists st' a,
    utils.pcd_from_files example_read_structure
      ["tests/samples/IRMOF-1.xyz"; "tests/samples/Cu-BTC.cif"]
      "/tmp/pcds.npz" true [1%nat] empty_store = Ok st' /\
    st' "/tmp/pcds.npz" = Some a /\
    Permutation (files a) ["IRMOF-1"; "Cu-BTC"].
Proof.
  destruct (shuffled_names_are_a_permutation Z example_read_structure
              ["tests/samples/IRMOF-1.xyz"; "tests/samples/Cu-BTC.cif"]
              "/tmp/pcds.npz" [1%nat] empty_store)
    as (st' & a & Hrun & Hst & Hperm & _).
  - intros f [<-|[<-|[]]]; reflexivity.
  - exists st', a. repeat split; assumption.
Defined.

(** The draw 1 puts the second structure first. *)
Example shuffled_order_differs :
  option_map (@files Z)
    (match utils.pcd_from_files example_read_structure
             ["tests/samples/IRMOF-1.xyz"; "tests/samples/Cu-BTC.cif"]
             "/tmp/pcds.npz" true [1%nat] empty_store with
     | Ok st' => st' "/tmp/pcds.npz"
     | Raise _ => None
     end) = Some ["Cu-BTC"; "IRMOF-1"].
Proof. vm_compute. reflexivity. Qed.

Lemma two_sample_structures_witness :
  exists st' a,
    utils.pcd_from_files example_read_structure
      ["tests/samples/IRMOF-1.xyz"; "tests/samples/Cu-BTC.cif"]
      "/tmp/pcds.npz" false [] empty_store = Ok st' /\
    st' "/tmp/pcds.npz" = Some a /\
    files a = ["IRMOF-1"; "Cu-BTC"].
Proof.
  destruct (two_sample_structures Z example_read_structure
              "tests/samples/IRMOF-1.xyz" "tests/samples/Cu-BTC.cif"
              "/tmp/pcds.npz"
              (utils.mkPoint 0%Z 0%Z 0%Z 30%Z
               :: repeat (utils.mkPoint 1%Z 2%Z 3%Z 6%Z) 423)
              (utils.mkPoint 0%Z 0%Z 0%Z 29%Z
               :: repeat (utils.mkPoint 1%Z 2%Z 3%Z 8%Z) 623)
              [] empty_store)
    as (st' & a & a1 & a2 & Hrun & Hst & Hfiles & _).
  - reflexivity.
  - reflexivity.
  - reflexivity.
  - reflexivity.
  - vm_compute. reflexivity.
  - vm_compute. reflexivity.
  - left. reflexivity.
  - cbn [map atomic_number]. intros [H|H]; [discriminate H|].
    rewrite map_repeat in H. apply repeat_spec in H. discriminate H.
  - exists st', a. repeat split; assumption.
Defined.

End utils_facts.

(* ===================================================================== *)
(** ** The data module: further properties *)
(* ===================================================================== *)

Module datamodules_extra.
Import PosixPath PathFacts datamodules datamodules_facts.

Section Extra.

Variable Callable : Type.
Variable get_names : string -> result (list string).
Variable Loader : Type.
Variable DataLoader : dict Callable -> result Loader.

Local Abbreviation PCDDataModule := (datamodules.PCDDataModule Callable).
Local Abbreviation setup := (datamodules.setup get_names).
Local Abbreviation train_dataloader := (datamodules.train_dataloader DataLoader).
Local Abbreviation val_dataloader := (datamodules.val_dataloader DataLoader).
Local Abbreviation test_dataloader := (datamodules.test_dataloader DataLoader).

Lemma runs_fit_false (stage : option string) :
  stage <> None -> stage <> Some "fit" -> runs_fit stage = false.
Proof.
  intros H1 H2. destruct (runs_fit stage) eqn:E; [|reflexivity].
  apply runs_fit_iff in E. destruct E; contradiction.
Qed.

Lemma runs_test_false (stage : option string) :
  stage <> None -> stage <> Some "test" -> runs_test stage = false.
Proof.
  intros H1 H2. destruct (runs_test stage) eqn:E; [|reflexivity].
  apply runs_test_iff in E. destruct E; contradiction.
Qed.

(** X1. A stage other than [None], ['fit'] and ['test'] (the trainer
    also passes ['validate'] and ['predict']) makes [setup] return at
    once: nothing is read and nothing is bound, so that on a new
    instance the validation loader is still refused afterwards. *)
Theorem setup_other_stage (self : PCDDataModule) (stage : option string) :
  stage <> None -> stage <> Some "fit" -> stage <> Some "test" ->
  setup stage self = (Ok tt, self) /\
  (fresh self ->
   val_dataloader (snd (setup stage self))
   = (Raise (AttributeError "validation_dataset"), self)).
Proof.
  intros H1 H2 H3.
  assert (Hrun : setup stage self = (Ok tt, self)).
  { rewrite setup_blocks, runs_fit_false, runs_test_false by assumption.
    reflexivity. }
  split; [exact Hrun|].
  intros (_ & _ & _ & _ & Hva & _). rewrite Hrun. cbn [snd].
  apply val_dataloader_unbound, Hva.
Qed.

(** *** [setup] by the results of its three reads *)

Lemma setup_by_results (stage : option string) (self : PCDDataModule) :
  setup stage self =
  setup_with (runs_fit stage) (runs_test stage)
    (get_names (manifest self "train.json"))
    (get_names (manifest self "validation.json"))
    (get_names (manifest self "test.json")) self.
Proof. apply setup_as_with, same_config_refl. Qed.

Lemma setup_with_config (fit test : bool) (r1 r2 r3 : result (list string))
    (s : PCDDataModule) :
  same_config s (snd (setup_with fit test r1 r2 r3 s)).
Proof.
  destruct fit, test, r1 as [?|?], r2 as [?|?], r3 as [?|?]; repeat split.
Qed.

(** X2. [setup] stops at the first manifest that cannot be read, lets
    the error through and keeps what it has bound until then: nothing
    when [train.json] fails; the train names alone, and no dataset, when
    [validation.json] fails; the names and datasets of the stage [fit]
    when, with [stage=None], [test.json] fails. *)
Theorem setup_stops_at_unreadable_manifest
    (self : PCDDataModule) (stage : option string) :
  stage = None \/ stage = Some "fit" ->
  (forall e,
     get_names (manifest self "train.json") = Raise e ->
     setup stage self = (Raise e, self)) /\
  (forall train e,
     get_names (manifest self "train.json") = Ok train ->
     get_names (manifest self "validation.json") = Raise e ->
     exists self',
       setup stage self = (Raise e, self') /\
       _train_names self' = Some (slice_to train (train_size self)) /\
       _val_names self' = _val_names self /\
       train_dataset self' = train_dataset self /\
       validation_dataset self' = validation_dataset self /\
       _test_names self' = _test_names self /\
       test_dataset self' = test_dataset self) /\
  (forall train val e,
     stage = None ->
     get_names (manifest self "train.json") = Ok train ->
     get_names (manifest self "validation.json") = Ok val ->
     get_names (manifest self "test.json") = Raise e ->
     setup stage self = (Raise e, after_fit train val self)).
Proof.
  intros Hstage. apply runs_fit_iff in Hstage.
  rewrite setup_by_results, Hstage. split; [|split].
  - intros e ->. reflexivity.
  - intros train e -> ->. eexists. split; [reflexivity|]. repeat split.
  - intros train val e -> -> -> ->. reflexivity.
Qed.

Lemma run_setups_config
    (stages : list (option string)) (self : PCDDataModule) :
  same_config self (run_setups get_names stages self).
Proof.
  revert self. induction stages as [|st stages IH]; intros self.
  - apply same_config_refl.
  - cbn [run_setups]. eapply same_config_trans; [|apply IH].
    apply setup_config.
Qed.

(** X3. No call of [setup], whatever its stage and its outcome, binds
    again an attribute that [__init__] has bound: paths, columns,
    transforms, sizes, the shuffle flag, the loader options and the
    directory of the manifests stay what they were, and the manifests
    are looked for beside the archive as before.  The loader methods
    bind nothing at all. *)
Theorem setup_never_rebinds_config
    (stages : list (option string)) (self : PCDDataModule) :
  let s := run_setups get_names stages self in
  same_config self s /\
  (configured self -> configured s) /\
  snd (train_dataloader s) = s /\
  snd (val_dataloader s) = s /\
  snd (test_dataloader s) = s.
Proof.
  intros s. pose proof (run_setups_config stages self) as H. fold s in H.
  split; [exact H|]. split.
  - unfold configured. intros Hc.
    destruct H as (-> & _ & _ & _ & _ & _ & _ & _ & _ & _ & _ & _ & ->).
    exact Hc.
  - unfold datamodules.train_dataloader, datamodules.val_dataloader,
      datamodules.test_dataloader, bind, getattr, attr, lift.
    destruct (train_dataset s), (validation_dataset s), (test_dataset s);
      repeat split.
Qed.

(** X4. [setup()] is [setup('fit')] followed by [setup('test')]: when
    the stage [fit] succeeds, running the stage [test] next gives the
    result and the instance of [setup(stage=None)]; when it fails,
    [setup(stage=None)] fails in the same way and goes no further. *)
Theorem setup_None_is_fit_then_test (self : PCDDataModule) :
  (fst (setup (Some "fit") self) = Ok tt ->
   setup (Some "test") (snd (setup (Some "fit") self)) = setup None self) /\
  (forall e, fst (setup (Some "fit") self) = Raise e ->
             setup None self = setup (Some "fit") self).
Proof.
  rewrite (setup_as_with _ get_names (Some "test") self
             (snd (setup (Some "fit") self)) (setup_config _ _ _ _)).
  rewrite !setup_by_results.
  change (runs_fit None) with true. change (runs_test None) with true.
  change (runs_fit (Some "fit")) with true.
  change (runs_test (Some "fit")) with false.
  change (runs_fit (Some "test")) with false.
  change (runs_test (Some "test")) with true.
  destruct (get_names (manifest self "train.json")) as [train|e1];
    destruct (get_names (manifest self "validation.json")) as [val|e2];
    destruct (get_names (manifest self "test.json")) as [test|e3];
    split; try reflexivity; cbn; intros; try discriminate; reflexivity.
Qed.

(** X5. The two stages do not interfere: [setup('fit')] then
    [setup('test')] leaves the same instance as [setup('test')] then
    [setup('fit')], and each call has the result it has when run
    alone. *)
Theorem setup_stages_commute (self : PCDDataModule) :
  snd (setup (Some "fit") (snd (setup (Some "test") self)))
  = snd (setup (Some "test") (snd (setup (Some "fit") self))) /\
  fst (setup (Some "fit") (snd (setup (Some "test") self)))
  = fst (setup (Some "fit") self) /\
  fst (setup (Some "test") (snd (setup (Some "fit") self)))
  = fst (setup (Some "test") self).
Proof.
  rewrite (setup_as_with _ get_names (Some "test") self
             (snd (setup (Some "fit") self)) (setup_config _ _ _ _)).
  rewrite (setup_as_with _ get_names (Some "fit") self
             (snd (setup (Some "test") self)) (setup_config _ _ _ _)).
  rewrite !setup_by_results.
  change (runs_fit (Some "fit")) with true.
  change (runs_test (Some "fit")) with false.
  change (runs_fit (Some "test")) with false.
  change (runs_test (Some "test")) with true.
  destruct self.
  destruct (get_names _) as [train|e1];
    destruct (get_names _) as [val|e2];
    destruct (get_names _) as [test|e3];
    repeat split.
Qed.

(** X6. A call of [setup] for one stage, whatever its outcome, leaves
    the names and the dataset of the other stage as they were. *)
Theorem setup_stage_isolation (self : PCDDataModule) :
  (let s := snd (setup (Some "fit") self) in
   _test_names s = _test_names self /\ test_dataset s = test_dataset self) /\
  (let s := snd (setup (Some "test") self) in
   _train_names s = _train_names self /\ _val_names s = _val_names self /\
   train_dataset s = train_dataset self /\
   validation_dataset s = validation_dataset self).
Proof.
  rewrite !setup_by_results.
  change (runs_fit (Some "fit")) with true.
  change (runs_test (Some "fit")) with false.
  change (runs_fit (Some "test")) with false.
  change (runs_test (Some "test")) with true.
  destruct (get_names (manifest self "train.json")) as [train|e1];
    destruct (get_names (manifest self "validation.json")) as [val|e2];
    destruct (get_names (manifest self "test.json")) as [test|e3];
    repeat split.
Qed.

(** *** What calls of [setup] can leave bound *)

Lemma fresh_settled (self : PCDDataModule) :
  fresh self -> settled get_names self.
Proof.
  intros (H1 & H2 & H3 & H4 & H5 & H6). split; left; repeat split; assumption.
Qed.

Ltac settle_leaf :=
  first [ assumption | reflexivity | discriminate | congruence ].

Ltac settle_eqs :=
  repeat match goal with
    | H : Ok _ = Raise _ |- _ => discriminate H
    | H : Raise _ = Ok _ |- _ => discriminate H
    | H : Ok _ = Ok _ |- _ => injection H as H
    | H : Raise _ = Raise _ |- _ => injection H as H
    end; subst.

Ltac settle_fit :=
  first
    [ solve [left; repeat split; settle_leaf]
    | solve [right; left; do 2 eexists; repeat split; settle_leaf]
    | solve [right; right; do 2 eexists; repeat split; settle_leaf] ].

Ltac settle_test :=
  first
    [ solve [left; repeat split; settle_leaf]
    | solve [right; eexists; repeat split; settle_leaf] ].

Lemma setup_settled (stage : option string) (self : PCDDataModule) :
  settled get_names self -> settled get_names (snd (setup stage self)).
Proof.
  unfold settled. intros H.
  rewrite !(manifest_same_config _ self (snd (setup stage self)) _
              (setup_config _ _ _ _)).
  rewrite setup_by_results.
  set (r1 := get_names (manifest self "train.json")) in H |- *.
  set (r2 := get_names (manifest self "validation.json")) in H |- *.
  set (r3 := get_names (manifest self "test.json")) in H |- *.
  clearbody r1 r2 r3.
  destruct self. unfold new_PCDDataset in H |- *. cbn in H.
  destruct H as [Hfit Htest].
  destruct (runs_fit stage), (runs_test stage),
    r1 as [train|e1], r2 as [val|e2], r3 as [test|e3]; cbn;
    (split;
     [ destruct Hfit as [Hf|[(tr & e & Hf)|(tr & va & Hf)]];
       decompose [and] Hf; clear Htest; settle_eqs; settle_fit
     | destruct Htest as [Ht|(te & Ht)];
       decompose [and] Ht; clear Hfit; settle_eqs; settle_test ]).
Qed.

Lemma run_setups_settled
    (stages : list (option string)) (self : PCDDataModule) :
  settled get_names self -> settled get_names (run_setups get_names stages self).
Proof.
  revert self. induction stages as [|st stages IH]; intros self H.
  - exact H.
  - cbn [run_setups]. apply IH, setup_settled, H.
Qed.

(** X7. On every instance reached from a new one by calls of [setup],
    over manifests that do not change, a dataset that is bound holds
    the names of the property of its split and the transform of its
    split; the train and the validation dataset are bound together, and
    validation or test names are never bound without their dataset. *)
Theorem datasets_agree_with_names
    (stages : list (option string)) (self0 : PCDDataModule) :
  fresh self0 ->
  let s := run_setups get_names stages self0 in
  (forall d, train_dataset s = Some d ->
     _train_names s = Some (data.pcd_names d) /\
     data.transform_x d = train_transform_x s /\
     exists d', validation_dataset s = Some d') /\
  (forall d, validation_dataset s = Some d ->
     _val_names s = Some (data.pcd_names d) /\
     data.transform_x d = eval_transform_x s /\
     exists d', train_dataset s = Some d') /\
  (forall d, test_dataset s = Some d ->
     _test_names s = Some (data.pcd_names d) /\
     data.transform_x d = eval_transform_x s) /\
  (forall names, _val_names s = Some names ->
     exists d, validation_dataset s = Some d) /\
  (forall names, _test_names s = Some names ->
     exists d, test_dataset s = Some d).
Proof.
  intros Hfresh s.
  pose proof (run_setups_settled stages self0 (fresh_settled _ Hfresh)) as H.
  fold s in H. destruct H as [Hfit Htest].
  destruct Hfit as [Hf|[(tr & e & Hf)|(tr & va & Hf)]];
    destruct Htest as [Ht|(te & Ht)];
    decompose [and] Hf; decompose [and] Ht;
    repeat split; intros;
    repeat match goal with
      | H1 : ?x = Some _, H2 : ?x = None |- _ => rewrite H1 in H2; discriminate H2
      | H1 : ?x = Some ?a, H2 : ?x = Some ?b |- _ =>
          rewrite H1 in H2; injection H2 as H2; subst a
      end;
    eauto.
Qed.

Lemma settled_fit_ready (s : PCDDataModule) :
  settled get_names s ->
  train_dataset s <> None \/ validation_dataset s <> None ->
  exists names val,
    _train_names s = Some names /\ _val_names s = Some val /\
    train_dataset s = Some (new_PCDDataset names (train_transform_x s) s) /\
    validation_dataset s = Some (new_PCDDataset val (eval_transform_x s) s).
Proof.
  unfold settled. cbv zeta. intros [Hfit _] Hb.
  destruct Hfit as [(A & B & C & D)
                   |[(tr & e & A & B & C & D & E & F)
                    |(tr & va & A & B & C & D & E & F)]].
  - destruct Hb; contradiction.
  - destruct Hb; contradiction.
  - eauto 10.
Qed.

Lemma settled_test_ready (s : PCDDataModule) :
  settled get_names s ->
  test_dataset s <> None ->
  exists test,
    _test_names s = Some test /\
    test_dataset s = Some (new_PCDDataset test (eval_transform_x s) s).
Proof.
  unfold settled. cbv zeta. intros [_ Htest] Hb.
  destruct Htest as [(A & B)|(te & A & B & C)]; [contradiction|eauto].
Qed.

(** X8. [set_train_dataset], [set_validation_dataset] and
    [set_test_dataset] read the names of their split: on a new instance
    each raises [AttributeError] on the attribute of the names and
    binds nothing; on an instance reached by calls of [setup] whose
    dataset is bound, calling one again leaves the instance as it is. *)
Theorem set_dataset_needs_names
    (stages : list (option string)) (self0 : PCDDataModule) :
  fresh self0 ->
  set_train_dataset self0 = (Raise (AttributeError "_train_names"), self0) /\
  set_validation_dataset self0
  = (Raise (AttributeError "_val_names"), self0) /\
  set_test_dataset self0 = (Raise (AttributeError "_test_names"), self0) /\
  let s := run_setups get_names stages self0 in
  (train_dataset s <> None -> set_train_dataset s = (Ok tt, s)) /\
  (validation_dataset s <> None -> set_validation_dataset s = (Ok tt, s)) /\
  (test_dataset s <> None -> set_test_dataset s = (Ok tt, s)).
Proof.
  intros Hfresh.
  pose proof (run_setups_settled stages self0 (fresh_settled _ Hfresh)) as H.
  destruct Hfresh as (H1 & H2 & H3 & _).
  unfold set_train_dataset, set_validation_dataset, set_test_dataset,
    train_names, val_names, test_names, bind, getattr, attr, modify.
  rewrite H1, H2, H3. do 3 (split; [reflexivity|]).
  cbv zeta. set (s := run_setups get_names stages self0) in H |- *.
  clearbody s.
  split; [|split]; intros Hbound.
  - destruct (settled_fit_ready s H (or_introl Hbound))
      as (names & val & Hn & _ & Hd & _).
    rewrite Hn. destruct s. cbn in Hd |- *.
    unfold set_train_dataset_attr. cbn. congruence.
  - destruct (settled_fit_ready s H (or_intror Hbound))
      as (names & val & _ & Hn & _ & Hd).
    rewrite Hn. destruct s. cbn in Hd |- *.
    unfold set_validation_dataset_attr. cbn. congruence.
  - destruct (settled_test_ready s H Hbound) as (test & Hn & Hd).
    rewrite Hn. destruct s. cbn in Hd |- *.
    unfold set_test_dataset_attr. cbn. congruence.
Qed.

(** *** Manifests that change between two calls *)

(** The manifests as a later call of [setup] finds them. *)
Variable get_names2 : string -> result (list string).

Local Abbreviation setup2 := (datamodules.setup get_names2).

Lemma setup_with_overrides (fit test : bool)
    (q1 q2 q3 r1 r2 r3 : result (list string)) (s : PCDDataModule) :
  fst (setup_with fit test r1 r2 r3 s) = Ok tt ->
  setup_with fit test r1 r2 r3 (snd (setup_with fit test q1 q2 q3 s))
  = setup_with fit test r1 r2 r3 s.
Proof.
  destruct s, fit, test, r1 as [?|?], r2 as [?|?], r3 as [?|?];
    cbn; intros H; try discriminate H;
    destruct q1 as [?|?], q2 as [?|?], q3 as [?|?]; reflexivity.
Qed.

(** X9. A call of [setup] that succeeds leaves no trace of an earlier
    call for the same stage, be the manifests changed in between and
    had the earlier call failed half way: the result and the instance
    are those of the later call alone. *)
Theorem setup_again_overrides (self : PCDDataModule) (stage : option string) :
  fst (setup2 stage self) = Ok tt ->
  setup2 stage (snd (setup stage self)) = setup2 stage self.
Proof.
  rewrite (setup_as_with _ get_names2 stage self (snd (setup stage self))
             (setup_config _ _ _ _)).
  rewrite (setup_as_with _ get_names2 stage self self (same_config_refl _ _)).
  rewrite setup_by_results. apply setup_with_overrides.
Qed.

(** X10. [setup] is not atomic.  When the stage [fit] has succeeded and
    is run again after the train manifest has changed and the
    validation manifest has become unreadable, the call raises, the
    property [train_names] gives the new names, and the train dataset
    still holds the old ones. *)
Theorem failed_setup_leaves_stale_dataset
    (self : PCDDataModule) (train1 val1 train2 : list string) (e : exn) :
  get_names (manifest self "train.json") = Ok train1 ->
  get_names (manifest self "validation.json") = Ok val1 ->
  get_names2 (manifest self "train.json") = Ok train2 ->
  get_names2 (manifest self "validation.json") = Raise e ->
  let s1 := snd (setup (Some "fit") self) in
  let s2 := snd (setup2 (Some "fit") s1) in
  fst (setup2 (Some "fit") s1) = Raise e /\
  train_names s2 = (Ok (slice_to train2 (train_size self)), s2) /\
  option_map data.pcd_names (train_dataset s2)
  = Some (slice_to train1 (train_size self)).
Proof.
  intros H1 H2 H3 H4. cbv zeta.
  rewrite (setup_as_with _ get_names2 (Some "fit") self
             (snd (setup (Some "fit") self)) (setup_config _ _ _ _)).
  rewrite setup_by_results, H1, H2, H3, H4.
  repeat split.
Qed.

End Extra.

Section Loaders.

Variable Callable : Type.
Variable get_names : string -> result (list string).
Variable Loader : Type.
Variable DataLoader : dict Callable -> result Loader.

Local Abbreviation PCDDataModule := (datamodules.PCDDataModule Callable).
Local Abbreviation setup := (datamodules.setup get_names).
Local Abbreviation call_DataLoader := (datamodules.call_DataLoader DataLoader).
Local Abbreviation train_dataloader := (datamodules.train_dataloader DataLoader).
Local Abbreviation val_dataloader := (datamodules.val_dataloader DataLoader).
Local Abbreviation test_dataloader := (datamodules.test_dataloader DataLoader).

Lemma has_key_keys (k : string) (d : dict Callable) :
  has_key k d = existsb (String.eqb k) (keys d).
Proof.
  unfold has_key, keys.
  induction d as [|[k' v] d IH]; [reflexivity|].
  cbn [existsb map fst]. now rewrite IH.
Qed.

Lemma first_clash_cons (explicit : list string) (k : string)
    (v : value Callable) (d : dict Callable) :
  first_clash explicit ((k, v) :: d) =
  if existsb (String.eqb k) explicit then Some k else first_clash explicit d.
Proof. reflexivity. Qed.

(** The merge of the keyword arguments, for a mapping with distinct
    keys: the first key that the call binds itself stops it. *)
Lemma dict_merge_first_clash (d acc kw : dict Callable) :
  NoDup (keys (acc ++ d)) ->
  dict_merge (kw ++ acc) d =
  match first_clash (keys kw) d with
  | Some k => Raise (TypeError_multiple_values k)
  | None => Ok (kw ++ acc ++ d)
  end.
Proof.
  revert acc. induction d as [|[k v] d IH]; intros acc Hnd.
  - cbn. now rewrite app_nil_r.
  - cbn [dict_merge]. rewrite first_clash_cons.
    rewrite has_key_app, <- has_key_keys.
    assert (Hacc : has_key k acc = false).
    { destruct (has_key k acc) eqn:E; [|reflexivity].
      apply has_key_In in E. unfold keys in Hnd. rewrite map_app in Hnd.
      apply NoDup_remove_2 in Hnd. exfalso. apply Hnd.
      apply in_or_app. left. exact E. }
    rewrite Hacc, orb_false_r.
    destruct (has_key k kw); [reflexivity|].
    rewrite <- app_assoc.
    rewrite (IH (acc ++ [(k, v)])) by now rewrite <- app_assoc.
    destruct (first_clash (keys kw) d); [reflexivity|].
    now rewrite <- !app_assoc.
Qed.

Lemma call_DataLoader_first_clash (kw cfg : dict Callable) :
  NoDup (keys cfg) ->
  call_DataLoader kw cfg =
  match first_clash (keys kw) cfg with
  | Some k => Raise (TypeError_multiple_values k)
  | None => DataLoader (kw ++ cfg)
  end.
Proof.
  intros Hnd. unfold datamodules.call_DataLoader.
  pose proof (dict_merge_first_clash cfg [] kw Hnd) as H.
  rewrite app_nil_r in H. rewrite H.
  destruct (first_clash (keys kw) cfg); reflexivity.
Qed.

(** X11. What each loader method returns, in the order in which it
    fails: [AttributeError] when the dataset of the split is not bound,
    whatever the options; else [TypeError] naming the first key of
    [config_dataloaders] that the method passes itself (['dataset'],
    ['batch_size'] and, for the train loader, ['shuffle']), without
    [DataLoader] being called; else what [DataLoader] returns, a loader
    or an error of its own, for these arguments followed by the
    options.  The instance is left as it was in every case. *)
Theorem loaders_outcome (self : PCDDataModule) :
  NoDup (keys (config_dataloaders self)) ->
  let cfg := config_dataloaders self in
  train_dataloader self =
    (match train_dataset self with
     | None => Raise (AttributeError "train_dataset")
     | Some d =>
         match first_clash ["dataset"; "batch_size"; "shuffle"] cfg with
         | Some k => Raise (TypeError_multiple_values k)
         | None =>
             DataLoader
               ([("dataset", VDataset d);
                 ("batch_size", VInt (train_batch_size self));
                 ("shuffle", VBool (shuffle self))] ++ cfg)
         end
     end, self) /\
  val_dataloader self =
    (match validation_dataset self with
     | None => Raise (AttributeError "validation_dataset")
     | Some d =>
         match first_clash ["dataset"; "batch_size"] cfg with
         | Some k => Raise (TypeError_multiple_values k)
         | None =>
             DataLoader
               ([("dataset", VDataset d);
                 ("batch_size", VInt (eval_batch_size self))] ++ cfg)
         end
     end, self) /\
  test_dataloader self =
    (match test_dataset self with
     | None => Raise (AttributeError "test_dataset")
     | Some d =>
         match first_clash ["dataset"; "batch_size"] cfg with
         | Some k => Raise (TypeError_multiple_values k)
         | None =>
             DataLoader
               ([("dataset", VDataset d);
                 ("batch_size", VInt (eval_batch_size self))] ++ cfg)
         end
     end, self).
Proof using Type.
  intros Hnd cfg.
  unfold datamodules.train_dataloader, datamodules.val_dataloader,
    datamodules.test_dataloader, bind, getattr, attr, lift.
  split; [|split].
  - destruct (train_dataset self); [|reflexivity].
    now rewrite (call_DataLoader_first_clash _ _ Hnd).
  - destruct (validation_dataset self); [|reflexivity].
    now rewrite (call_DataLoader_first_clash _ _ Hnd).
  - destruct (test_dataset self); [|reflexivity].
    now rewrite (call_DataLoader_first_clash _ _ Hnd).
Qed.

Lemma run_setups_options
    (stages : list (option string)) (self : PCDDataModule) :
  let s := run_setups get_names stages self in
  config_dataloaders s = config_dataloaders self /\
  train_batch_size s = train_batch_size self /\
  eval_batch_size s = eval_batch_size self /\
  shuffle s = shuffle self.
Proof.
  intros s. pose proof (run_setups_config _ get_names stages self) as H.
  fold s in H. repeat split; apply H.
Qed.

(** X12. With [config_dataloaders] left at its default [None], the
    options are the empty mapping: after any calls of [setup] a loader
    method either raises [AttributeError], its dataset not being bound,
    or returns what [DataLoader] returns for exactly the dataset, the
    batch size given to [__init__] and, for the train loader, the
    shuffle flag.  No option is added, and the call never stops on a
    keyword argument given twice. *)
Theorem default_options_never_clash
    (pX pY ic : string) (ls : list string) (ts : option Z)
    (ttx etx ty : option Callable) (sh : bool) (tb eb : Z)
    (stages : list (option string)) :
  let s := run_setups get_names stages
             (__init__ pX pY ic ls ts ttx etx ty sh tb eb None) in
  train_dataloader s =
    (match train_dataset s with
     | None => Raise (AttributeError "train_dataset")
     | Some d => DataLoader [("dataset", VDataset d);
                             ("batch_size", VInt tb);
                             ("shuffle", VBool sh)]
     end, s) /\
  val_dataloader s =
    (match validation_dataset s with
     | None => Raise (AttributeError "validation_dataset")
     | Some d => DataLoader [("dataset", VDataset d);
                             ("batch_size", VInt eb)]
     end, s) /\
  test_dataloader s =
    (match test_dataset s with
     | None => Raise (AttributeError "test_dataset")
     | Some d => DataLoader [("dataset", VDataset d);
                             ("batch_size", VInt eb)]
     end, s).
Proof.
  intros s.
  destruct (run_setups_options stages
              (__init__ pX pY ic ls ts ttx etx ty sh tb eb None))
    as (Hcfg & Htb & Heb & Hsh).
  fold s in Hcfg, Htb, Heb, Hsh. cbn in Hcfg, Htb, Heb, Hsh.
  assert (Hnd : NoDup (keys (config_dataloaders s)))
    by (rewrite Hcfg; constructor).
  assert (Hfree : forall names, free_of names (config_dataloaders s))
    by (intros names k _; rewrite Hcfg; reflexivity).
  split; [|split].
  - destruct (train_dataset s) as [d|] eqn:E.
    + rewrite (train_dataloader_bound _ _ DataLoader s d E Hnd (Hfree _)).
      now rewrite Hcfg, Htb, Hsh.
    + now apply train_dataloader_unbound.
  - destruct (validation_dataset s) as [d|] eqn:E.
    + rewrite (val_dataloader_bound _ _ DataLoader s d E Hnd (Hfree _)).
      now rewrite Hcfg, Heb.
    + now apply val_dataloader_unbound.
  - destruct (test_dataset s) as [d|] eqn:E.
    + rewrite (test_dataloader_bound _ _ DataLoader s d E Hnd (Hfree _)).
      now rewrite Hcfg, Heb.
    + now apply test_dataloader_unbound.
Qed.

Lemma slice_to_prefix {A} (l : list A) (stop : option Z) :
  exists rest, l = slice_to l stop ++ rest.
Proof.
  unfold slice_to. eexists. symmetry. apply firstn_skipn.
Qed.

Lemma slice_to_length_formula {A} (l : list A) (stop : option Z) :
  List.length (slice_to l stop) =
  match stop with
  | None => List.length l
  | Some n =>
      if (n <? 0)%Z then (List.length l - Z.to_nat (- n))%nat
      else Nat.min (Z.to_nat n) (List.length l)
  end.
Proof.
  unfold slice_to, adjust_stop, len. rewrite length_firstn.
  destruct stop as [n|]; [|lia].
  destruct (Z.ltb_spec n 0).
  - destruct (Z.ltb_spec (n + Z.of_nat (List.length l)) 0); lia.
  - destruct (Z.leb_spec (Z.of_nat (List.length l)) n); lia.
Qed.

(** X13. Whatever [train_size] is, the names kept for training are the
    first names of the train manifest, in its order: as many as
    [train_size] when it lies between 0 and the length of the manifest
    (none for 0), all of them when it is [None] or larger, all but the
    last [-train_size] when it is negative.  The train dataset holds
    the same names.  This is so also when, with [stage=None], the test
    manifest cannot be read afterwards. *)
Theorem train_names_are_a_prefix
    (self : PCDDataModule) (stage : option string) (train val : list string) :
  stage = None \/ stage = Some "fit" ->
  get_names (manifest self "train.json") = Ok train ->
  get_names (manifest self "validation.json") = Ok val ->
  let s := snd (setup stage self) in
  exists names rest,
    _train_names s = Some names /\
    option_map data.pcd_names (train_dataset s) = Some names /\
    train = names ++ rest /\
    List.length names =
    match train_size self with
    | None => List.length train
    | Some n =>
        if (n <? 0)%Z then (List.length train - Z.to_nat (- n))%nat
        else Nat.min (Z.to_nat n) (List.length train)
    end.
Proof.
  intros Hstage H1 H2 s.
  destruct (slice_to_prefix train (train_size self)) as [rest Hrest].
  exists (slice_to train (train_size self)), rest.
  assert (Hs : _train_names s = Some (slice_to train (train_size self)) /\
               option_map data.pcd_names (train_dataset s)
               = Some (slice_to train (train_size self))).
  { subst s. apply runs_fit_iff in Hstage.
    rewrite (setup_as_with _ get_names stage self self (same_config_refl _ _)).
    rewrite Hstage, H1, H2.
    destruct (runs_test stage);
      destruct (get_names (manifest self "test.json")); split; reflexivity. }
  destruct Hs as [Hn Hd].
  split; [exact Hn|]. split; [exact Hd|]. split; [exact Hrest|].
  apply slice_to_length_formula.
Qed.

End Loaders.

Section Paths.

Variable Callable : Type.

Lemma parse_component (x : string) : component x -> parse x = mkPath "" [x].
Proof.
  intros Hx. destruct (component_shape _ Hx) as (c & r & E & Hc & _).
  unfold parse. rewrite E, (splitroot_rel _ _ Hc), <- E.
  rewrite (split_no_sep x) by apply Hx.
  cbn [filter]. destruct Hx as [_ ->]. reflexivity.
Qed.

(** X14. An archive written as [os.path.join(d, x)], for a directory
    [d] in the form [pathlib] prints and a file name [x], has its
    manifests read from [os.path.join(d, 'train.json')] and so on: the
    directory that [__init__] keeps is [d] again. *)
Theorem manifests_beside_archive
    (d : Path) (x file pY ic : string) (ls : list string) (ts : option Z)
    (ttx etx ty : option Callable) (sh : bool) (tb eb : Z)
    (cfg : option (dict Callable)) :
  wf d -> component x ->
  let self := __init__ (os_path_join (str d) x)
                pY ic ls ts ttx etx ty sh tb eb cfg in
  _path_to_names self = d /\
  manifest self file = os_path_join (str d) file.
Proof.
  intros Hd Hx self.
  assert (H : _path_to_names self = d) by (apply parent_join_child; assumption).
  split; [exact H|]. unfold manifest. now rewrite H.
Qed.

(** X15. An archive given by its file name alone, without a directory,
    has its manifests looked for in the current directory, under
    [./train.json], [./validation.json] and [./test.json]. *)
Theorem bare_archive_name
    (x pY ic : string) (ls : list string) (ts : option Z)
    (ttx etx ty : option Callable) (sh : bool) (tb eb : Z)
    (cfg : option (dict Callable)) :
  component x ->
  let self := __init__ x pY ic ls ts ttx etx ty sh tb eb cfg in
  str (_path_to_names self) = "." /\
  manifest self "train.json" = "./train.json" /\
  manifest self "validation.json" = "./validation.json" /\
  manifest self "test.json" = "./test.json".
Proof.
  intros Hx self.
  assert (H : _path_to_names self = mkPath "" []).
  { subst self. cbn [__init__ _path_to_names].
    now rewrite (parse_component x Hx). }
  unfold manifest. rewrite H. repeat split.
Qed.

End Paths.

(** *** The properties on the directory [pcd_data] *)

Import Scenario ScenarioMore.

Lemma setup_other_stage_witness :
  datamodules.setup example_get_names (Some "predict")
    (example_module None None)
  = (Ok tt, example_module None None).
Proof.
  apply (setup_other_stage unit example_get_names (dict unit)
           example_DataLoader (example_module None None) (Some "predict"));
    discriminate.
Defined.

Lemma setup_stops_at_unreadable_manifest_witness :
  exists self',
    datamodules.setup get_names_no_validation (Some "fit")
      (example_module (Some 2%Z) None)
    = (Raise (OSError "pcd_data/validation.json"), self') /\
    _train_names self' = Some ["IRMOF-1"; "Cu-BTC"] /\
    train_dataset self' = None.
Proof.
  destruct (setup_stops_at_unreadable_manifest unit get_names_no_validation
              (example_module (Some 2%Z) None) (Some "fit"))
    as (_ & Hval & _).
  - right. reflexivity.
  - destruct (Hval ["IRMOF-1"; "Cu-BTC"; "UiO-66"]
                (OSError "pcd_data/validation.json"))
      as (self' & Hrun & Hn & _ & Hd & _).
    + reflexivity.
    + reflexivity.
    + exists self'. split; [exact Hrun|]. split; [exact Hn|]. exact Hd.
Defined.

Lemma setup_None_is_fit_then_test_witness :
  datamodules.setup example_get_names (Some "test")
    (snd (datamodules.setup example_get_names (Some "fit")
            (example_module None None)))
  = datamodules.setup example_get_names None (example_module None None).
Proof.
  apply (setup_None_is_fit_then_test unit example_get_names
           (example_module None None)).
  vm_compute. reflexivity.
Defined.

Lemma datasets_agree_with_names_witness :
  let s := run_setups example_get_names [Some "fit"; Some "predict"]
             (example_module (Some 2%Z) None) in
  _train_names s = Some ["IRMOF-1"; "Cu-BTC"] /\
  exists d', validation_dataset s = Some d'.
Proof.
  intros s.
  destruct (datasets_agree_with_names unit example_get_names
              [Some "fit"; Some "predict"] (example_module (Some 2%Z) None))
    as (Htrain & _).
  - repeat split.
  - fold s in Htrain.
    destruct (Htrain (data.mkPCDDataset ["IRMOF-1"; "Cu-BTC"]
                        "pcd_data/pcds.npz" "pcd_data/labels.csv" "id" ["y"]
                        None None)) as (Hn & _ & Hv).
    + vm_compute. reflexivity.
    + split; [exact Hn|exact Hv].
Defined.

Lemma set_dataset_needs_names_witness :
  set_train_dataset (example_module None None)
  = (Raise (AttributeError "_train_names"), example_module None None).
Proof.
  destruct (set_dataset_needs_names unit example_get_names []
              (example_module None None)) as (H & _).
  - repeat split.
  - exact H.
Defined.

Lemma setup_again_overrides_witness :
  datamodules.setup get_names_renewed None
    (snd (datamodules.setup get_names_no_validation None
            (example_module None None)))
  = datamodules.setup get_names_renewed None (example_module None None).
Proof.
  apply (setup_again_overrides unit get_names_no_validation get_names_renewed
           (example_module None None) None).
  vm_compute. reflexivity.
Defined.

Lemma failed_setup_leaves_stale_dataset_witness :
  let s1 := snd (datamodules.setup example_get_names (Some "fit")
                   (example_module None None)) in
  let s2 := snd (datamodules.setup get_names_changed (Some "fit") s1) in
  fst (train_names s2) = Ok ["MIL-53"; "NU-1000"] /\
  option_map data.pcd_names (train_dataset s2)
  = Some ["IRMOF-1"; "Cu-BTC"; "UiO-66"].
Proof.
  intros s1 s2.
  destruct (failed_setup_leaves_stale_dataset unit example_get_names
              get_names_changed (example_module None None)
              ["IRMOF-1"; "Cu-BTC"; "UiO-66"] ["MOF-5"]
              ["MIL-53"; "NU-1000"] (OSError "pcd_data/validation.json"))
    as (_ & Hn & Hd).
  - reflexivity.
  - reflexivity.
  - reflexivity.
  - reflexivity.
  - fold s1 in Hn, Hd. fold s2 in Hn, Hd. split.
    + rewrite Hn. reflexivity.
    + exact Hd.
Defined.

Lemma loaders_outcome_witness :
  let self := snd (datamodules.setup example_get_names None
                     (example_module None
                        (Some [("num_workers", VInt 2%Z);
                               ("batch_size", VInt 8%Z);
                               ("dataset", VNone)]))) in
  fst (datamodules.test_dataloader example_DataLoader self)
  = Raise (TypeError_multiple_values "batch_size").
Proof.
  intros self.
  destruct (loaders_outcome unit (dict unit) example_DataLoader self)
    as (_ & _ & Htest).
  - repeat constructor; simpl; intuition discriminate.
  - rewrite Htest. vm_compute. reflexivity.
Defined.

Lemma train_names_are_a_prefix_witness :
  let s := snd (datamodules.setup example_get_names (Some "fit")
                  (example_module (Some 0%Z) None)) in
  _train_names s = Some [].
Proof.
  intros s.
  destruct (train_names_are_a_prefix unit example_get_names
              (example_module (Some 0%Z) None) (Some "fit")
              ["IRMOF-1"; "Cu-BTC"; "UiO-66"] ["MOF-5"])
    as (names & rest & Hn & _ & _ & Hlen).
  - right. reflexivity.
  - reflexivity.
  - reflexivity.
  - fold s in Hn. rewrite Hn. f_equal.
    destruct names; [reflexivity|discriminate Hlen].
Defined.

Lemma manifests_beside_archive_witness :
  manifest (@__init__ unit "pcd_data/pcds.npz" "pcd_data/labels.csv" "id"
              ["y"] None None None None false 32%Z 32%Z None)
    "train.json"
  = "pcd_data/train.json".
Proof.
  apply (manifests_beside_archive unit (parse "pcd_data") "pcds.npz"
           "train.json" "pcd_data/labels.csv" "id" ["y"] None None None None
           false 32%Z 32%Z None).
  - apply parse_wf.
  - split; reflexivity.
Defined.

Lemma bare_archive_name_witness :
  manifest (@__init__ unit "pcds.npz" "labels.csv" "id"
              ["y"] None None None None false 32%Z 32%Z None)
    "train.json"
  = "./train.json".
Proof.
  apply (bare_archive_name unit "pcds.npz" "labels.csv" "id" ["y"]
           None None None None false 32%Z 32%Z None).
  split; reflexivity.
Defined.

End datamodules_extra.
